(** * Copyboard: the board engine and the native-messaging dispatcher

    A shallow embedding of [copyboard_extension/core.py] (the bounded,
    head-deduplicating clipboard history with write-back persistence) and
    of [handle_message] from [copyboard_extension/native_messaging_host.py].

    Module-level globals of [core.py] become the fields of one record that
    every operation takes and returns.  What the operating system decides
    (the clock read by [time.time()], whether the board file can be
    written, whether the clipboard can be reached) is an explicit argument
    of each call.  Effects that leave the
    process (a file written, a paste keystroke requested) are appended to a
    trace kept in the same record. *)

From Stdlib Require Import ZArith QArith Qpower Qround Lia Lqa List.
From Stdlib Require Import Ascii String DecimalString.
From Stdlib Require Import Strings.Byte.
From stdpp Require Import base option list list_numbers gmap.
From Equations Require Import Equations.

Local Close Scope Q_scope.
Local Open Scope Z_scope.

(** ** Python values *)

(** A Python [str] is a sequence of Unicode code points; [len], slicing and
    [replace] count code points, so the text is a list of them. *)
Abbreviation char := N (only parsing).
Abbreviation str := (list N) (only parsing).

(** ASCII literals of the source, as code points. *)
Definition py (s : string) : str :=
  map N_of_ascii (list_ascii_of_string s).

(** [str(n)] for a Python int. *)
Definition str_of_int (n : Z) : str :=
  py (NilZero.string_of_int (Z.to_int n)).

(** [len(x)] as a Python int. *)
Definition len {A} (l : list A) : Z := Z.of_nat (length l).

(** [sep.join(items)]. *)
Fixpoint join (sep : str) (items : list str) : str :=
  match items with
  | [] => []
  | [x] => x
  | x :: rest => x ++ sep ++ join sep rest
  end.

(** [list.pop()] on a non-empty list: everything but the last element. *)
Definition pop_last {A} (l : list A) : list A := removelast l.

(** ** Python floats *)

(** A Python [float] is an IEEE 754 binary64 number.  A finite one is
    written here as the rational it denotes; an operation computes the
    exact result and rounds it to the nearest double, ties going to the
    even significand.  Time stamps are finite, and the only use made of a
    rounded result is a comparison, so an overflow, which IEEE answers with
    an infinity, is answered with [2 ^ 1024], larger than every double. *)
Module Float.

Local Open Scope Q_scope.

(** The binary exponent of a positive number: [2 ^ ilog2 q <= q < 2 ^
    (ilog2 q + 1)]. *)
Definition ilog2 (q : Q) : Z :=
  let d := (Z.log2 (Qnum q) - Z.log2 (Zpos (Qden q)))%Z in
  if Qle_bool (2 ^ d) q then d else (d - 1)%Z.

(** The nearest integer, the even one of two equally near. *)
Definition round_half_even (n : Q) : Z :=
  let f := Qfloor n in
  match Qcompare (2 * (n - inject_Z f)) 1 with
  | Lt => f
  | Gt => (f + 1)%Z
  | Eq => if Z.even f then f else (f + 1)%Z
  end.

Definition infinity : Q := 2 ^ 1024.

(** Rounding of a positive number: 53 significant bits, the exponent not
    below -1022 (the subnormal numbers share the last place 2 ^ -1074). *)
Definition round_positive (q : Q) : Q :=
  let e := Z.max (ilog2 q) (-1022) in
  let ulp := 2 ^ (e - 52) in
  let r := inject_Z (round_half_even (q / ulp)) * ulp in
  if Qle_bool infinity r then infinity else r.

Definition round_double (q : Q) : Q :=
  match Qcompare q 0 with
  | Eq => 0
  | Gt => round_positive q
  | Lt => - round_positive (- q)
  end.

(** [x - y] on floats. *)
Definition fsub (x y : Q) : Q := round_double (x - y).

(** The least exact difference above which [x - y > 2.0] holds on floats:
    2 plus half a unit in the last place of 2. *)
Definition half_ulp_above_2 : Q := 2 + (1 # 4503599627370496).

End Float.

(** ** The module state of [core.py] *)

Module Core.

(** Effects that leave the process, most recent first. *)
Inductive effect : Type :=
| FileWritten (contents : list str)  (* [json.dump(_board, f)] completed *)
| FileWriteFailed                    (* the write raised; the error is printed *)
| PasteRequested.                    (* [paste_helper.paste_current_clipboard()] *)

(** Time stamps are the rationals that the floats denote: the code
    subtracts two of them ([Float.fsub]) and compares the difference with
    [AUTO_SAVE_DELAY], nothing else. *)
Record store : Type := Store {
  _board : list str;
  _board_modified : bool;
  _last_saved_time : Q;
  _changes_since_save : Z;
  MAX_BOARD_SIZE : Z;
  clipboard : str;          (* what [pyperclip.paste()] returns *)
  effects : list effect
}.

(** What the surroundings answer during one call: the value of
    [time.time()], whether opening and writing [BOARD_FILE] succeeds, and
    whether the clipboard can be reached: [clipboard_error] is [None] when
    it can, and otherwise the text [str(e)] of the exception that the
    [pyperclip] calls raise.  The functions of [core.py] do not catch that
    exception, and their definitions describe the call that returns; the
    callers that do catch it ([handle_message], [handle_paste_combo]) look
    at [clipboard_error] where the source has its [except]. *)
Record env : Type := Surroundings {
  now : Q;
  disk_ok : bool;
  clipboard_error : option str
}.

(** Surroundings in which the clipboard can be reached. *)
Definition Env (now : Q) (disk_ok : bool) : env :=
  Surroundings now disk_ok None.

Definition AUTO_SAVE_DELAY : Q := 2 # 1.
Definition SAVE_BATCH_SIZE : Z := 3.

(** Start of the module: empty cache, nothing saved yet. *)
Definition initial (loaded : list str) (clip : str) : store :=
  {| _board := loaded; _board_modified := false; _last_saved_time := 0%Q;
     _changes_since_save := 0; MAX_BOARD_SIZE := 10; clipboard := clip;
     effects := [] |}.

Definition set_board (b : list str) (s : store) : store :=
  {| _board := b; _board_modified := _board_modified s;
     _last_saved_time := _last_saved_time s;
     _changes_since_save := _changes_since_save s;
     MAX_BOARD_SIZE := MAX_BOARD_SIZE s; clipboard := clipboard s;
     effects := effects s |}.

Definition set_max (m : Z) (s : store) : store :=
  {| _board := _board s; _board_modified := _board_modified s;
     _last_saved_time := _last_saved_time s;
     _changes_since_save := _changes_since_save s;
     MAX_BOARD_SIZE := m; clipboard := clipboard s;
     effects := effects s |}.

Definition set_clipboard (c : str) (s : store) : store :=
  {| _board := _board s; _board_modified := _board_modified s;
     _last_saved_time := _last_saved_time s;
     _changes_since_save := _changes_since_save s;
     MAX_BOARD_SIZE := MAX_BOARD_SIZE s; clipboard := c;
     effects := effects s |}.

Definition emit (ev : effect) (s : store) : store :=
  {| _board := _board s; _board_modified := _board_modified s;
     _last_saved_time := _last_saved_time s;
     _changes_since_save := _changes_since_save s;
     MAX_BOARD_SIZE := MAX_BOARD_SIZE s; clipboard := clipboard s;
     effects := ev :: effects s |}.

(** [x > y] on time stamps. *)
Definition Qgtb (x y : Q) : bool := negb (Qle_bool x y).

(** ** Persistence *)

(** The three assignments after a completed write. *)
Definition saved_at (t : Q) (s : store) : store :=
  {| _board := _board s; _board_modified := false;
     _last_saved_time := t; _changes_since_save := 0;
     MAX_BOARD_SIZE := MAX_BOARD_SIZE s; clipboard := clipboard s;
     effects := FileWritten (_board s) :: effects s |}.

(** The [try] block of [_save_board]. *)
Definition write_file (e : env) (s : store) : store :=
  if disk_ok e then saved_at (now e) s else emit FileWriteFailed s.

(** The flush condition of [_save_board]; [current_time] is [now e]. *)
Definition flush_due (e : env) (force : bool) (s : store) : bool :=
  force
  || (SAVE_BATCH_SIZE <=? _changes_since_save s)
  || (Qgtb (Float.fsub (now e) (_last_saved_time s)) AUTO_SAVE_DELAY
      && _board_modified s).

Definition _save_board (e : env) (force : bool) (s : store) : store :=
  if negb (_board_modified s) && negb force then s
  else if flush_due e force s then write_file e s
  else s.

Definition _mark_modified (s : store) : store :=
  {| _board := _board s; _board_modified := true;
     _last_saved_time := _last_saved_time s;
     _changes_since_save := _changes_since_save s + 1;
     MAX_BOARD_SIZE := MAX_BOARD_SIZE s; clipboard := clipboard s;
     effects := effects s |}.

(** ** Board operations *)

(** [_board and _board[0] == content] *)
Definition head_is (content : str) (b : list str) : bool :=
  match b with
  | [] => false
  | h :: _ => bool_decide (h = content)
  end.

Definition copy_to_board (e : env) (content : option str) (s : store)
  : str * store :=
  let content := match content with
                 | None => clipboard s
                 | Some c => c
                 end in
  if head_is content (_board s) then (content, s)
  else
    let b := content :: _board s in
    let b := if MAX_BOARD_SIZE s <? len b then pop_last b else b in
    let s := set_board b s in
    let s := _mark_modified s in
    let s := _save_board e false s in
    (content, s).

(** [x[i]] once [0 <= i < len(x)] has been checked. *)
Definition item_at (b : list str) (i : Z) : str := b !!! Z.to_nat i.

(** The bounds test [0 <= index < len(_board)]. *)
Definition in_range (index : Z) (b : list str) : bool :=
  (0 <=? index) && (index <? len b).

Definition request_paste (auto_paste : bool) (s : store) : store :=
  if auto_paste then emit PasteRequested s else s.

Definition paste_from_board (index : Z) (auto_paste : bool) (s : store)
  : bool * store :=
  if bool_decide (_board s = []) || (index <? 0) || (len (_board s) <=? index)
  then (false, s)
  else
    let s := set_clipboard (item_at (_board s) index) s in
    (true, request_paste auto_paste s).

Definition paste_all (auto_paste : bool) (s : store) : bool * store :=
  if bool_decide (_board s = []) then (false, s)
  else
    let all_content := join (py (String "010"%char EmptyString)) (_board s) in
    let s := set_clipboard all_content s in
    (true, request_paste auto_paste s).

(** The validation loop of [paste_combination]: [true] when it runs to its
    end, [false] when it returns early. *)
Fixpoint all_valid (b : list str) (indices : list Z) : bool :=
  match indices with
  | [] => true
  | idx :: rest =>
      if (idx <? 0) || (len b <=? idx) then false else all_valid b rest
  end.

Definition paste_combination (indices : list Z) (auto_paste : bool)
  (s : store) : bool * store :=
  if bool_decide (_board s = []) then (false, s)
  else if negb (all_valid (_board s) indices) then (false, s)
  else
    let selected_items := map (item_at (_board s)) indices in
    let combined := join [] selected_items in
    let s := set_clipboard combined s in
    (true, request_paste auto_paste s).

Definition drop_item (e : env) (index : option Z) (s : store)
  : bool * store :=
  if bool_decide (_board s = []) then (false, s)
  else
    let popped :=
      match index with
      | None => Some (pop_last (_board s))
      | Some i =>
          if in_range i (_board s)
          then Some (delete (Z.to_nat i) (_board s))
          else None
      end in
    match popped with
    | None => (false, s)
    | Some b =>
        let s := set_board b s in
        let s := _mark_modified s in
        let s := _save_board e false s in
        (true, s)
    end.

Definition clear_board (e : env) (s : store) : list str * store :=
  let s := set_board [] s in
  let s := _mark_modified s in
  let s := _save_board e true s in
  (_board s, s).

Definition get_board (s : store) : list str := _board s.

Definition get_board_item (index : Z) (s : store) : option str :=
  if in_range index (_board s) then Some (item_at (_board s) index)
  else None.

Definition get_board_size (s : store) : Z := len (_board s).

(** [item[:n]], Python slicing: a negative bound counts from the end. *)
Definition slice_to {A} (n : Z) (item : list A) : list A :=
  if 0 <=? n then take (Z.to_nat n) item
  else take (Z.to_nat (len item + n)) item.

(** [text.replace(old, new)] for a one-character [old]. *)
Definition replace_char (old : char) (new : str) (text : str) : str :=
  flat_map (fun c => if N.eqb c old then new else [c]) text.

(** The replacement text written in [get_board_preview]: the code points
    U+00E2, U+2020, U+00B5 and a space, as the source file spells it. *)
Definition newline_mark : str := [226; 8224; 181; 32]%N.

Definition ellipsis : str := py "...".

Definition preview_of (preview_max : Z) (item : str) : str :=
  let preview :=
    if preview_max <? len item
    then slice_to preview_max item ++ ellipsis
    else item in
  replace_char 10%N newline_mark preview.

(** [f"{index}: {preview}"] *)
Definition sheet_line (index : Z) (preview : str) : str :=
  str_of_int index ++ py ": " ++ preview.

(** The [for index, item in enumerate(_board)] loop, from [index] on. *)
Fixpoint preview_loop (preview_max : Z) (index : Z) (items : list str)
  (board_sheet : gmap Z str) : gmap Z str :=
  match items with
  | [] => board_sheet
  | item :: rest =>
      preview_loop preview_max (index + 1) rest
        (<[index := sheet_line index (preview_of preview_max item)]>
           board_sheet)
  end.

Definition get_board_preview (preview_max : Z) (s : store) : gmap Z str :=
  preview_loop preview_max 0 (_board s) ∅.

(** A value together with the equation that names it, so that a test's
    outcome stays available to the termination argument. *)
Definition inspect {A} (a : A) : {b : A | a = b} := exist _ a eq_refl.

(** The [while len(_board) > MAX_BOARD_SIZE] loop of [set_max_board_size],
    entered right after [MAX_BOARD_SIZE = max(1, size)]; it returns the
    board and the [changed] flag. *)
Equations trim_loop (size : Z) (b : list str) (changed : bool)
  : list str * bool by wf (length b) lt :=
  trim_loop size b changed with inspect (Z.max 1 size <? len b) := {
    | exist _ true _ => trim_loop size (pop_last b) true
    | exist _ false _ => (b, changed) }.
Next Obligation.
  apply Z.ltb_lt in e.
  destruct b as [|x b]; [ unfold len in e; simpl in e; lia |].
  unfold pop_last. rewrite removelast_firstn_len, length_take. simpl. lia.
Qed.

Definition set_max_board_size (e : env) (size : Z) (s : store) : store :=
  let s := set_max (Z.max 1 size) s in
  let '(b, changed) := trim_loop size (_board s) false in
  let s := set_board b s in
  if changed then
    let s := _mark_modified s in
    _save_board e true s
  else s.

Definition force_save (e : env) (s : store) : store := _save_board e true s.

End Core.

(** ** The native-messaging dispatcher *)

Module Host.

Import Core.

(** A scalar decoded from the request by [json.loads]: the fields of a
    request are strings and integers; [null] and the booleans are the other
    scalars a client can put there.  Numbers with a fraction, arrays and
    objects are not values of this type. *)
Inductive jval : Type :=
| JNull
| JBool (b : bool)
| JInt (n : Z)
| JStr (s : str).

(** A value put in a response dictionary. *)
Inductive rval : Type :=
| RBool (b : bool)
| RStr (s : str)
| RItems (items : list str).

#[global] Instance jval_eq_dec : EqDecision jval.
Proof. solve_decision. Defined.

#[global] Instance rval_eq_dec : EqDecision rval.
Proof. solve_decision. Defined.

(** Truth value of a decoded scalar in an [if]. *)
Definition truthy (v : jval) : bool :=
  match v with
  | JNull => false
  | JBool b => b
  | JInt n => negb (n =? 0)
  | JStr s => negb (bool_decide (s = []))
  end.

(** [str(v)], as used by f-strings and by [pyperclip.copy]. *)
Definition str_of (v : jval) : str :=
  match v with
  | JNull => py "None"
  | JBool true => py "True"
  | JBool false => py "False"
  | JInt n => str_of_int n
  | JStr s => s
  end.

(** The integer a value stands for in a comparison with an int, or the
    name of its type when the comparison raises [TypeError]. *)
Definition as_int (v : jval) : str + Z :=
  match v with
  | JNull => inl (py "NoneType")
  | JBool b => inr (if b then 1 else 0)
  | JInt n => inr n
  | JStr _ => inl (py "str")
  end.

(** [str(e)] for the [TypeError] of an ordering comparison with an int. *)
Definition not_supported (op : string) (type_name : str) : str :=
  py "'" ++ py op ++ py "' not supported between instances of '"
  ++ type_name ++ py "' and 'int'".

Definition failure (msg : str) : gmap str rval :=
  {[ py "success" := RBool false; py "error" := RStr msg ]}.

(** [handle_message]; the calls to the logger are left out.  An exception
    raised inside a [try] becomes the response its [except] builds from
    [str(e)]: the [TypeError] of a comparison, and the exception of a
    [pyperclip] call when the clipboard cannot be reached.  Of the latter,
    the add action meets it at [pyperclip.copy(content)], its first
    clipboard call, and the paste_direct action at the [pyperclip.copy]
    inside [paste_from_board], which is reached only when the index has
    passed the bounds test; in both cases nothing has changed yet. *)
Definition handle_message (e : env) (message : gmap str jval) (s : store)
  : gmap str rval * store :=
  let action := default (JStr []) (message !! py "action") in
  if bool_decide (action = JStr (py "add")) then
    let content := default (JStr []) (message !! py "content") in
    if truthy content then
      match clipboard_error e with
      | Some text => (failure text, s)
      | None =>
          let s := set_clipboard (str_of content) s in
          let '(_, s) := copy_to_board e None s in
          ({[ py "success" := RBool true ]}, s)
      end
    else (failure (py "No content provided"), s)
  else if bool_decide (action = JStr (py "list")) then
    let board := get_board s in
    ({[ py "success" := RBool true; py "items" := RItems board ]}, s)
  else if bool_decide (action = JStr (py "paste")) then
    let index := default (JInt (-1)) (message !! py "index") in
    match as_int index with
    | inl ty => (failure (not_supported ">=" ty), s)
    | inr i =>
        let found :=
          if 0 <=? i then
            match get_board_item i s with
            | Some content =>
                if negb (bool_decide (content = [])) then Some content
                else None
            | None => None
            end
          else None in
        match found with
        | Some content =>
            ({[ py "success" := RBool true; py "content" := RStr content ]}, s)
        | None => (failure (py "Invalid index or item not found"), s)
        end
    end
  else if bool_decide (action = JStr (py "paste_direct")) then
    let index := default (JInt 0) (message !! py "index") in
    if bool_decide (_board s = []) then
      ({[ py "success" := RBool false ]}, s)
    else
      match as_int index with
      | inl ty => (failure (not_supported "<" ty), s)
      | inr i =>
          let '(result, s') := paste_from_board i true s in
          match (if result then clipboard_error e else None) with
          | Some text => (failure text, s)
          | None => ({[ py "success" := RBool result ]}, s')
          end
      end
  else if bool_decide (action = JStr (py "clear")) then
    let '(_, s) := clear_board e s in
    ({[ py "success" := RBool true ]}, s)
  else (failure (py "Unknown action: " ++ str_of action), s).

End Host.

(** * Vocabulary of the statements *)

Module Terms.

Import Core Host.

(** The board after one [copy_to_board], as a function of the board
    before, the content and the maximum. *)
Definition inserted (m : Z) (content : str) (b : list str) : list str :=
  if head_is content b then b
  else if m <? len (content :: b) then pop_last (content :: b)
       else content :: b.

(** The states reached after each call of a sequence of insertions; every
    call comes with what the surroundings answer during it. *)
Fixpoint run_inserts (calls : list (env * option str)) (s : store)
  : list store :=
  match calls with
  | [] => []
  | (e, content) :: rest =>
      let s' := snd (copy_to_board e content s) in
      s' :: run_inserts rest s'
  end.

(** An index that [_board[idx]] accepts after the bounds tests of the
    source: [0 <= idx < len(_board)]. *)
Definition valid_index (b : list str) (idx : Z) : Prop := 0 <= idx < len b.

(** The line feed of ['\n']. *)
Definition newline : str := [10%N].

(** What one run of the [try] block of [_save_board] adds to the trace. *)
Definition write_attempt (e : env) (b : list str) : effect :=
  if disk_ok e then FileWritten b else FileWriteFailed.

(** Nothing pending: the flag is down and the counter is zero. *)
Definition clean (s : store) : Prop :=
  _board_modified s = false /\ _changes_since_save s = 0.

(** The spec's wording of Clear: after [clear_board] the board is empty
    and nothing is pending, whatever happened to the write. *)
Definition clear_leaves_clean (e : env) (s : store) : Prop :=
  _board (snd (clear_board e s)) = [] /\ clean (snd (clear_board e s)).

(** The spec's wording of Preview for one entry: the content cut
    to [max_chars] characters, [marker] appended when something was cut,
    and every line feed turned into the one character [glyph]. *)
Definition claimed_preview (glyph : char) (marker : str) (max_chars : Z)
  (item : str) : str :=
  replace_char 10%N [glyph]
    (if len item <=? max_chars then item
     else take (Z.to_nat max_chars) item ++ marker).

(** Decide the comparisons of the action against the literals of the
    dispatch chain. *)
Ltac decide_actions :=
  repeat match goal with
    | |- context [bool_decide (JStr ?a = JStr ?b)] =>
        let v := eval vm_compute in (bool_decide (JStr a = JStr b)) in
        change (bool_decide (JStr a = JStr b)) with v
    end;
  cbv iota.

End Terms.

(** * The rest of [core.py] and the operations as a whole *)

Module CoreRest.

Import Core.

(** [quick_copy_paste]: clipboard and keystroke, the board is not used. *)
Definition quick_copy_paste (content : str) (s : store) : bool * store :=
  let s := set_clipboard content s in
  (true, emit PasteRequested s).

(** What [_load_board] finds at [BOARD_FILE]: no file, a file that
    [open] or [json.load] rejects, or the array of strings it holds. *)
Inductive board_file : Type :=
| NoFile
| Unreadable
| Stored (b : list str).

(** The module state together with the [_board_loaded] flag, which only
    [_load_board] reads and writes. *)
Record cache : Type := Cache {
  mem : store;
  _board_loaded : bool
}.

Definition _load_board (f : board_file) (force : bool) (c : cache)
  : list str * cache :=
  if negb (_board_loaded c) || force then
    match f with
    | Stored b =>
        (b, {| mem := set_board b (mem c); _board_loaded := true |})
    | Unreadable =>
        ([], {| mem := set_board [] (mem c);
                _board_loaded := _board_loaded c |})
    | NoFile =>
        ([], {| mem := set_board [] (mem c); _board_loaded := true |})
    end
  else (_board (mem c), c).


(** The module right after its globals are initialised and before the
    [_load_board()] at import time. *)
Definition fresh (clip : str) : cache :=
  {| mem := initial [] clip; _board_loaded := false |}.

End CoreRest.

Module Api.

Import Core CoreRest.

(** One call of a public function of [core.py] that takes the state. *)
Inductive call : Type :=
| CopyToBoard (content : option str)
| PasteFromBoard (index : Z) (auto_paste : bool)
| PasteAll (auto_paste : bool)
| PasteCombination (indices : list Z) (auto_paste : bool)
| DropItem (index : option Z)
| ClearBoard
| SetMaxBoardSize (size : Z)
| ForceSave
| QuickCopyPaste (content : str).

(** The state after the call. *)
Definition exec (e : env) (c : call) (s : store) : store :=
  match c with
  | CopyToBoard content => snd (copy_to_board e content s)
  | PasteFromBoard index auto_paste => snd (paste_from_board index auto_paste s)
  | PasteAll auto_paste => snd (paste_all auto_paste s)
  | PasteCombination indices auto_paste =>
      snd (paste_combination indices auto_paste s)
  | DropItem index => snd (drop_item e index s)
  | ClearBoard => snd (clear_board e s)
  | SetMaxBoardSize size => set_max_board_size e size s
  | ForceSave => force_save e s
  | QuickCopyPaste content => snd (quick_copy_paste content s)
  end.

(** The states after each call of a sequence. *)
Fixpoint run (calls : list (env * call)) (s : store) : list store :=
  match calls with
  | [] => []
  | (e, c) :: rest => exec e c s :: run rest (exec e c s)
  end.

(** The calls that only read the board. *)
Definition reads_only (c : call) : bool :=
  match c with
  | PasteFromBoard _ _ | PasteAll _ | PasteCombination _ _
  | QuickCopyPaste _ => true
  | _ => false
  end.

(** The board is within a maximum that is at least one. *)
Definition bounded (s : store) : Prop :=
  1 <= MAX_BOARD_SIZE s /\ len (_board s) <= MAX_BOARD_SIZE s.

(** The dirty flag is up exactly when changes are counted. *)
Definition flag_matches_counter (s : store) : Prop :=
  0 <= _changes_since_save s
  /\ (_board_modified s = true <-> 0 < _changes_since_save s).

(** A history that never repeats an entry right after itself. *)
Fixpoint no_adjacent_dup (l : list str) : Prop :=
  match l with
  | x :: ((y :: _) as rest) => x <> y /\ no_adjacent_dup rest
  | _ => True
  end.

(** Putting [c] in front unless it is in front already. *)
Definition push (c : str) (l : list str) : list str :=
  if head_is c l then l else c :: l.

(** The unbounded history after pushing the contents in turn. *)
Definition pushed (contents : list str) (l : list str) : list str :=
  foldl (fun acc c => push c acc) l contents.

(** The state after a sequence of insertions. *)
Definition after_inserts (calls : list (env * option str)) (s : store)
  : store :=
  foldl (fun acc ec => snd (copy_to_board (fst ec) (snd ec) acc)) s calls.

(** The board that a load makes of the file. *)
Definition file_board (f : board_file) : list str :=
  match f with
  | Stored b => b
  | NoFile | Unreadable => []
  end.

End Api.

Module Requests.

Import Core Host.

(** The action of a request, as [handle_message] reads it. *)
Definition action_of (message : gmap str jval) : jval :=
  default (JStr []) (message !! py "action").

(** The actions that [handle_message] knows. *)
Definition known_actions : list str :=
  [py "add"; py "list"; py "paste"; py "paste_direct"; py "clear"].

Definition unknown_action (message : gmap str jval) : Prop :=
  forall name, In name known_actions -> action_of message <> JStr name.

(** The response of one request and the state after it. *)
Definition response (e : env) (message : gmap str jval) (s : store)
  : gmap str rval := fst (handle_message e message s).

Definition state_after (e : env) (message : gmap str jval) (s : store)
  : store := snd (handle_message e message s).

End Requests.

(** * The framing of [native_messaging_host.py] *)

Module Wire.

Import Core Host.

(** [sys.byteorder], which the format ['@I'] follows. *)
Inductive byteorder : Type := LittleEndian | BigEndian.

(** The byte with value [z mod 256]. *)
Definition byte_of (z : Z) : byte :=
  default Byte.x00 (Byte.of_N (Z.to_N (z mod 256))).

Definition byte_val (b : byte) : Z := Z.of_N (Byte.to_N b).

(** [struct.pack('@I', n)]: four bytes in native order, or [None] for the
    [struct.error] of a number that does not fit. *)
Definition pack_I (order : byteorder) (n : Z) : option (list byte) :=
  if (0 <=? n) && (n <=? 4294967295) then
    let b0 := byte_of n in
    let b1 := byte_of (n / 256) in
    let b2 := byte_of (n / 65536) in
    let b3 := byte_of (n / 16777216) in
    Some (match order with
          | LittleEndian => [b0; b1; b2; b3]
          | BigEndian => [b3; b2; b1; b0]
          end)
  else None.

(** [struct.unpack('@I', data)[0]], or [None] for the [struct.error] of a
    buffer that is not four bytes long. *)
Definition unpack_I (order : byteorder) (data : list byte) : option Z :=
  match data with
  | [a; b; c; d] =>
      Some (match order with
            | LittleEndian =>
                byte_val a + 256 * byte_val b + 65536 * byte_val c
                + 16777216 * byte_val d
            | BigEndian =>
                byte_val d + 256 * byte_val c + 65536 * byte_val b
                + 16777216 * byte_val a
            end)
  | _ => None
  end.

(** What [bytes.decode('utf-8')] followed by [json.loads] makes of a
    payload: a JSON object, another JSON value (of the named Python type),
    or an exception. *)
Inductive decoded : Type :=
| JsonObject (message : gmap str jval)
| JsonOther (type_name : str)
| JsonError.

(** What the code takes from Python and the machine: the byte order, the
    JSON decoder and encoder (with the UTF-8 step), the text of the
    [struct.error] that [pack] raises, and the encoded text [str(e)] of the
    exception of a failed write of the board file. *)
Record platform : Type := MachineAndPython {
  native : byteorder;
  loads : list byte -> decoded;
  dumps : gmap str rval -> list byte;
  pack_error : str;
  save_error : list byte
}.

(** A platform whose write errors have an empty text. *)
Definition Platform (native : byteorder) (loads : list byte -> decoded)
  (dumps : gmap str rval -> list byte) (pack_error : str) : platform :=
  MachineAndPython native loads dumps pack_error [].

(** The value [get_message] returns. *)
Inductive received : Type :=
| Dict (message : gmap str jval)
| NotDict (type_name : str).

(** The outcome of [get_message]: [sys.exit(0)], or a value and the input
    left unread. *)
Inductive incoming : Type :=
| Exit0
| Message (m : received) (unread : list byte).

Definition get_message (p : platform) (stdin : list byte) : incoming :=
  let length_bytes := take 4 stdin in
  let stdin := drop 4 stdin in
  match length_bytes with
  | [] => Exit0
  | _ =>
      match unpack_I (native p) length_bytes with
      | None => Message (Dict ∅) stdin
      | Some message_length =>
          let body := take (Z.to_nat message_length) stdin in
          let stdin := drop (Z.to_nat message_length) stdin in
          match loads p body with
          | JsonObject message => Message (Dict message) stdin
          | JsonOther type_name => Message (NotDict type_name) stdin
          | JsonError => Message (Dict ∅) stdin
          end
      end
  end.

(** [send_message]: what [stdout] holds afterwards. *)
Definition send_message (p : platform) (message : gmap str rval)
  (stdout : list byte) : list byte :=
  let message_json := dumps p message in
  match pack_I (native p) (len message_json) with
  | Some header => stdout ++ header ++ message_json
  | None =>
      let error_msg := dumps p (failure (pack_error p)) in
      match pack_I (native p) (len error_msg) with
      | Some error_len => stdout ++ error_len ++ error_msg
      | None => stdout
      end
  end.

(** [str(e)] for the [AttributeError] of [message.get] on a value that is
    not a dictionary. *)
Definition no_get (type_name : str) : str :=
  py "'" ++ type_name ++ py "' object has no attribute 'get'".

(** The bytes of an ASCII text. *)
Definition ascii_bytes (text : str) : list byte :=
  map (fun c => byte_of (Z.of_N c)) text.

(** The line that [_save_board] prints when the write fails:
    [print(f"Error saving clipboard board: {e}")]. *)
Definition save_error_line (p : platform) : list byte :=
  ascii_bytes (py "Error saving clipboard board: ") ++ save_error p
  ++ [Byte.x0a].

Fixpoint count_failed (events : list effect) : nat :=
  match events with
  | [] => 0%nat
  | FileWriteFailed :: rest => S (count_failed rest)
  | _ :: rest => count_failed rest
  end.

(** The failed writes among the events that the trace of [after] has in
    front of the trace of [before]. *)
Definition failed_saves (before after : store) : nat :=
  count_failed
    (take (length (effects after) - length (effects before))
          (effects after)).

(** What [core.py] has printed between two states.  [print] writes to
    the same [stdout] as the frames, through the text layer, which hands
    its text on when the stream is flushed at exit (the stream being a
    pipe): after the frame, which [send_message] writes and flushes
    through [sys.stdout.buffer]. *)
Definition printed_by_core (p : platform) (before after : store)
  : list byte :=
  concat (replicate (failed_saves before after) (save_error_line p)).

(** [main]: the bytes that one call sends to [stdout], and the state
    afterwards.  What [core.py] prints when it is imported, or in the
    handler that it registers with [atexit], is outside the call. *)
Definition main (p : platform) (e : env) (stdin : list byte) (s : store)
  : list byte * store :=
  match get_message p stdin with
  | Exit0 => ([], s)
  | Message (Dict message) _ =>
      let '(response, s') := handle_message e message s in
      (send_message p response [] ++ printed_by_core p s s', s')
  | Message (NotDict type_name) _ =>
      (send_message p (failure (no_get type_name)) [], s)
  end.

(** One frame: the header of the payload's length and the payload. *)
Definition frame (order : byteorder) (payload : list byte)
  : option (list byte) :=
  (fun header => header ++ payload) <$> pack_I order (len payload).

(** The value [get_message] makes of a decoded payload. *)
Definition as_received (d : decoded) : received :=
  match d with
  | JsonObject message => Dict message
  | JsonOther type_name => NotDict type_name
  | JsonError => Dict ∅
  end.

End Wire.

(** * The command handlers of [cli.py] *)

Module Cli.

Import Core.

(** What a handler leaves behind: its return value (the exit code), the
    lines it printed and the state.  The line that [core.py] itself prints
    when a write fails is the [FileWriteFailed] of the trace. *)
Record outcome : Type := Outcome {
  code : Z;
  printed : list str;
  final : store
}.

Definition dashes : str := py "----------------".

(** The loop of [handle_list] over [range(core.get_board_size())];
    [None] is the [KeyError] of [board_previews[idx]]. *)
Fixpoint list_rows (board_previews : gmap Z str) (indices : list Z)
  : option (list str) :=
  match indices with
  | [] => Some []
  | idx :: rest =>
      match board_previews !! idx with
      | None => None
      | Some line =>
          (fun rows => line :: dashes :: rows)
            <$> list_rows board_previews rest
      end
  end.

Definition handle_list (s : store) : option outcome :=
  if get_board_size s =? 0 then
    Some (Outcome 0 [py "Clipboard board is empty."] s)
  else
    let title := py "Clipboard Board (" ++ str_of_int (get_board_size s)
                 ++ py " items):" in
    let board_previews := get_board_preview 30 s in
    (fun rows => Outcome 0 (title :: dashes :: rows) s)
      <$> list_rows board_previews (seqZ 0 (get_board_size s)).

Definition handle_copy (index : Z) (s : store) : outcome :=
  let '(ok, s) := paste_from_board index true s in
  if ok then
    Outcome 0 [py "Copied item " ++ str_of_int index ++ py " to clipboard."] s
  else
    Outcome 1 [py "Error: No item at index " ++ str_of_int index ++ py "."] s.

Definition handle_copy_all (s : store) : outcome :=
  let '(ok, s) := paste_all true s in
  if ok then Outcome 0 [py "Copied all items to clipboard."] s
  else Outcome 1 [py "Error: Clipboard board is empty."] s.

Definition handle_add (e : env) (text : str) (s : store) : outcome :=
  let s := set_clipboard text s in
  let '(_, s) := copy_to_board e None s in
  Outcome 0 [py "Added text to clipboard board at index 0."] s.

Definition handle_remove (e : env) (index : Z) (s : store) : outcome :=
  let '(ok, s) := drop_item e (Some index) s in
  if ok then
    Outcome 0 [py "Removed item " ++ str_of_int index
               ++ py " from clipboard board."] s
  else
    Outcome 1 [py "Error: No item at index " ++ str_of_int index ++ py "."] s.

Definition handle_clear (e : env) (s : store) : outcome :=
  let '(_, s) := clear_board e s in
  Outcome 0 [py "Cleared clipboard board."] s.

(** The test of the validation loop of [handle_paste_combo]. *)
Definition out_of_board (s : store) (idx : Z) : bool :=
  (idx <? 0) || (get_board_size s <=? idx).

(** [handle_paste_combo].  The call of [core.paste_combination] stands in
    a [try]: when it reaches the clipboard and the clipboard is out of
    reach, the handler prints the text of the exception and returns 1. *)
Definition handle_paste_combo (e : env) (indices : list Z) (s : store)
  : outcome :=
  match indices with
  | [] => Outcome 1 [py "Error: No indices provided."] s
  | _ =>
      match find (out_of_board s) indices with
      | Some idx =>
          Outcome 1 [py "Error: Invalid index " ++ str_of_int idx ++ py "."] s
      | None =>
          let '(ok, s') := paste_combination indices true s in
          match (if ok then clipboard_error e else None) with
          | Some text => Outcome 1 [py "Error: " ++ text] s
          | None =>
              if ok then
                Outcome 0 [py "Pasted combination of items: "
                           ++ join (py ", ") (map str_of_int indices)] s'
              else Outcome 1 [py "Error: Failed to paste combination."] s'
          end
      end
  end.

End Cli.

(** * Properties of the rounding *)

Module FloatProps.

Import Float.

Local Open Scope Q_scope.

Lemma pow2_pos k : 0 < 2 ^ k.
Proof. apply Qpower_0_lt. reflexivity. Qed.

Lemma pow2_add j k : 2 ^ (j + k) == 2 ^ j * 2 ^ k.
Proof. apply Qpower_plus. discriminate. Qed.

Lemma pow2_succ k : 2 ^ (k + 1) == 2 * 2 ^ k.
Proof. rewrite pow2_add. change (2 ^ 1) with 2. ring. Qed.

Lemma pow2_le j k : (j <= k)%Z -> 2 ^ j <= 2 ^ k.
Proof. intros H. apply Qpower_le_compat_l; [exact H | discriminate]. Qed.

Lemma pow2_Z n : (0 <= n)%Z -> inject_Z (2 ^ n) == 2 ^ n.
Proof. intros H. now rewrite Zpower_Qpower. Qed.

Lemma ilog2_spec q : 0 < q -> 2 ^ ilog2 q <= q /\ q < 2 ^ (ilog2 q + 1).
Proof.
  intros Hq. unfold ilog2.
  destruct q as [a b]. 
  assert (Ha : (0 < a)%Z).
  { unfold Qlt in Hq. simpl in Hq. lia. }
  cbn [Qnum Qden].
  set (la := Z.log2 a). set (lb := Z.log2 (Zpos b)).
  pose proof (Z.log2_spec a Ha) as [Ha1 Ha2]. fold la in Ha1, Ha2.
  pose proof (Z.log2_spec (Zpos b) eq_refl) as [Hb1 Hb2]. fold lb in Hb1, Hb2.
  assert (Hla : (0 <= la)%Z) by apply Z.log2_nonneg.
  assert (Hlb : (0 <= lb)%Z) by apply Z.log2_nonneg.
  rewrite Zle_Qle, pow2_Z in Ha1, Hb1 by assumption.
  rewrite Zlt_Qlt, pow2_Z in Ha2, Hb2 by lia.
  unfold Z.succ in Ha2, Hb2. rewrite pow2_succ in Ha2, Hb2.
  set (A := inject_Z a) in *. set (B := inject_Z (Zpos b)) in *.
  assert (HB : 0 < B) by reflexivity.
  assert (HqB : (a # b) * B == A).
  { rewrite (Qmake_Qdiv a b). fold A B. field. intros H. rewrite H in HB. discriminate. }
  set (q := a # b) in *.
  set (d := (la - lb)%Z).
  assert (HD : 2 ^ d * 2 ^ lb == 2 ^ la).
  { rewrite <- pow2_add. now replace (d + lb)%Z with la by (unfold d; lia). }
  pose proof (pow2_pos d) as HDp. pose proof (pow2_pos lb) as HPB.
  destruct (Qle_bool (2 ^ d) q) eqn:Hle.
  - apply Qle_bool_iff in Hle. split; [exact Hle|].
    rewrite pow2_succ. apply (Qmult_lt_r _ _ B HB). nra.
  - assert (Hlt : q < 2 ^ d).
    { destruct (Qlt_le_dec q (2 ^ d)) as [H|H]; [exact H|].
      apply Qle_bool_iff in H. congruence. }
    replace (d - 1 + 1)%Z with d by lia. split; [|exact Hlt].
    assert (Hhalf : 2 * 2 ^ (d - 1) == 2 ^ d).
    { rewrite <- pow2_succ. now replace (d - 1 + 1)%Z with d by lia. }
    apply (Qmult_le_r _ _ B HB). nra.
Qed.

Lemma rhe_cases n :
  let m := round_half_even n in
  let f := Qfloor n in
  (m = f /\ 2 * (n - inject_Z f) < 1)
  \/ (m = (f + 1)%Z /\ 1 < 2 * (n - inject_Z f))
  \/ (2 * (n - inject_Z f) == 1
      /\ ((Z.even f = true /\ m = f) \/ (Z.even f = false /\ m = (f + 1)%Z))).
Proof.
  intros m f. subst m. unfold round_half_even. fold f.
  destruct (Qcompare (2 * (n - inject_Z f)) 1) eqn:Hc.
  - right. right. apply Qeq_alt in Hc. split; [exact Hc|].
    destruct (Z.even f); [left | right]; now split.
  - left. apply Qlt_alt in Hc. now split.
  - right. left. apply Qgt_alt in Hc. now split.
Qed.

Lemma floor_bounds n : inject_Z (Qfloor n) <= n /\ n < inject_Z (Qfloor n) + 1.
Proof.
  split; [apply Qfloor_le|].
  pose proof (Qlt_floor n) as H. now rewrite inject_Z_plus in H.
Qed.

Lemma rhe_near n :
  n - (1 # 2) <= inject_Z (round_half_even n)
  /\ inject_Z (round_half_even n) <= n + (1 # 2).
Proof.
  destruct (floor_bounds n) as [Hlo Hhi].
  destruct (rhe_cases n) as [[-> H] | [[-> H] | [H [[_ ->] | [_ ->]]]]];
    rewrite ?inject_Z_plus; change (inject_Z 1) with 1; split; lra.
Qed.

Lemma Zlt_Q_succ (x y : Z) : inject_Z x < inject_Z y -> inject_Z x + 1 <= inject_Z y.
Proof.
  rewrite <- Zlt_Qlt. intros H.
  change 1 with (inject_Z 1). rewrite <- inject_Z_plus, <- Zle_Qle. lia.
Qed.

Lemma rhe_gt_even n N :
  Z.even N = true ->
  inject_Z N < inject_Z (round_half_even n) <-> inject_Z N + (1 # 2) < n.
Proof.
  intros HN.
  destruct (floor_bounds n) as [Hlo Hhi].
  pose proof (rhe_cases n) as Hc. cbv zeta in Hc.
  remember (Qfloor n) as f eqn:Hf. clear Hf.
  remember (round_half_even n) as m eqn:Hm0. clear Hm0.
  assert (Hint : forall x y : Z,
             inject_Z x < inject_Z y + 1 -> inject_Z x <= inject_Z y).
  { intros x y H. change 1 with (inject_Z 1) in H.
    rewrite <- inject_Z_plus, <- Zlt_Qlt in H. rewrite <- Zle_Qle. lia. }
  assert (Hstrict : forall x y : Z,
             inject_Z x <= inject_Z y -> x <> y -> inject_Z x + 1 <= inject_Z y).
  { intros x y H Hne. apply Zlt_Q_succ. rewrite <- Zle_Qle in H.
    rewrite <- Zlt_Qlt. lia. }
  destruct Hc as [[Hm H] | [[Hm H] | [H [[Hev Hm] | [Hev Hm]]]]];
    subst m; rewrite ?inject_Z_plus; change (inject_Z 1) with 1.
  - split; intros Hgt.
    + apply Zlt_Q_succ in Hgt. lra.
    + assert (Hx : inject_Z N <= inject_Z f) by (apply Hint; lra).
      destruct (Z.eq_dec N f) as [Heq|Hne]; [rewrite Heq in *; lra|].
      pose proof (Hstrict _ _ Hx Hne). lra.
  - split; intros Hgt.
    + assert (Hx : inject_Z N <= inject_Z f) by (apply Hint; lra). lra.
    + assert (Hx : inject_Z N <= inject_Z f) by (apply Hint; lra). lra.
  - split; intros Hgt.
    + apply Zlt_Q_succ in Hgt. lra.
    + assert (Hx : inject_Z N <= inject_Z f) by (apply Hint; lra).
      destruct (Z.eq_dec N f) as [Heq|Hne]; [rewrite Heq in *; lra|].
      pose proof (Hstrict _ _ Hx Hne). lra.
  - assert (Hne : N <> f) by (intros Heq; rewrite Heq in HN; congruence).
    split; intros Hgt.
    + assert (Hx : inject_Z N <= inject_Z f) by (apply Hint; lra).
      pose proof (Hstrict _ _ Hx Hne). lra.
    + assert (Hx : inject_Z N <= inject_Z f) by (apply Hint; lra). lra.
Qed.

Lemma saturated_gt_2 r :
  2 < (if Qle_bool infinity r then infinity else r) <-> 2 < r.
Proof.
  assert (Hinf : 4 < infinity) by reflexivity.
  destruct (Qle_bool infinity r) eqn:Hle; [|reflexivity].
  apply Qle_bool_iff in Hle. split; intros _; lra.
Qed.

Lemma round_positive_gt_2 q :
  0 < q -> 2 < round_positive q <-> half_ulp_above_2 < q.
Proof.
  intros Hq. unfold round_positive, half_ulp_above_2.
  rewrite saturated_gt_2.
  destruct (ilog2_spec q Hq) as [Hlo Hhi].
  set (L := ilog2 q) in *.
  set (e := Z.max L (-1022)).
  pose proof (pow2_pos (e - 52)) as Hulp.
  set (ulp := 2 ^ (e - 52)) in *.
  assert (Hn : q / ulp * ulp == q).
  { field. intros H. rewrite H in Hulp. discriminate. }
  set (n := q / ulp) in *.
  destruct (rhe_near n) as [Hnear1 Hnear2].
  destruct (Qlt_le_dec q 2) as [Hq2 | Hq2].
  - (* below 2: the result is at most 2 *)
    assert (HL : (L <= 0)%Z).
    { destruct (Z_le_gt_dec L 0) as [H|H]; [exact H|]. exfalso.
      pose proof (pow2_le 1 L ltac:(lia)) as Hp. change (2 ^ 1) with 2 in Hp.
      lra. }
    assert (He : (e <= 0)%Z) by (unfold e; lia).
    assert (HT : inject_Z (2 ^ (53 - e)) * ulp == 2).
    { rewrite pow2_Z by lia. unfold ulp. rewrite <- pow2_add.
      replace (53 - e + (e - 52))%Z with 1%Z by lia. reflexivity. }
    set (T := (2 ^ (53 - e))%Z) in *.
    assert (HnT : n < inject_Z T).
    { apply (Qmult_lt_r _ _ ulp Hulp). lra. }
    assert (HmT : inject_Z (round_half_even n) <= inject_Z T).
    { assert (Hlt : inject_Z (round_half_even n) < inject_Z T + 1) by lra.
      change 1 with (inject_Z 1) in Hlt.
      rewrite <- inject_Z_plus, <- Zlt_Qlt in Hlt. rewrite <- Zle_Qle. lia. }
    split; intros H; [|lra]. exfalso.
    assert (inject_Z (round_half_even n) * ulp <= inject_Z T * ulp)
      by (apply Qmult_le_r; assumption).
    lra.
  - destruct (Qlt_le_dec q 4) as [Hq4 | Hq4].
    + (* between 2 and 4: one unit in the last place is 2^-51 *)
      assert (HL : L = 1%Z).
      { assert (H1 : (1 <= L)%Z).
        { destruct (Z_le_gt_dec 1 L) as [H|H]; [exact H|]. exfalso.
          pose proof (pow2_le (L + 1) 1 ltac:(lia)) as Hp.
          change (2 ^ 1) with 2 in Hp. lra. }
        assert (H2 : (L <= 1)%Z).
        { destruct (Z_le_gt_dec L 1) as [H|H]; [exact H|]. exfalso.
          pose proof (pow2_le 2 L ltac:(lia)) as Hp.
          change (2 ^ 2) with 4 in Hp. lra. }
        lia. }
      assert (Hu : ulp == 1 # 2251799813685248).
      { unfold ulp, e. rewrite HL. reflexivity. }
      pose proof (rhe_gt_even n 4503599627370496 eq_refl) as Hev.
      rewrite Hu in Hn |- *.
      split; intros H.
      * assert (Hm : inject_Z 4503599627370496 < inject_Z (round_half_even n))
          by (change (inject_Z 4503599627370496) with (4503599627370496 # 1);
              lra).
        apply Hev in Hm.
        change (inject_Z 4503599627370496) with (4503599627370496 # 1) in Hm.
        lra.
      * assert (Hm : inject_Z 4503599627370496 + (1 # 2) < n)
          by (change (inject_Z 4503599627370496) with (4503599627370496 # 1);
              lra).
        apply Hev in Hm.
        change (inject_Z 4503599627370496) with (4503599627370496 # 1) in Hm.
        lra.
    + (* from 4 on: the result is at least q - ulp / 2 *)
      assert (HL : (2 <= L)%Z).
      { destruct (Z_le_gt_dec 2 L) as [H|H]; [exact H|]. exfalso.
        pose proof (pow2_le (L + 1) 2 ltac:(lia)) as Hp.
        change (2 ^ 2) with 4 in Hp. lra. }
      assert (He : e = L) by (unfold e; lia).
      assert (Hu : ulp * 4503599627370496 == 2 ^ L).
      { unfold ulp. rewrite He.
        change 4503599627370496 with (2 ^ 52). rewrite <- pow2_add.
        now replace (L - 52 + 52)%Z with L by lia. }
      split; intros _; [lra|].
      assert (Hr : (n - (1 # 2)) * ulp
                   <= inject_Z (round_half_even n) * ulp)
        by (apply Qmult_le_r; assumption).
      lra.
Qed.

Lemma round_double_gt_2 q : 2 < round_double q <-> half_ulp_above_2 < q.
Proof.
  unfold round_double.
  destruct (Qcompare q 0) eqn:Hc.
  - apply Qeq_alt in Hc. unfold half_ulp_above_2. split; intros H; lra.
  - apply Qlt_alt in Hc.
    assert (Hneg : 0 < - q) by lra.
    assert (Hpos : 0 <= round_positive (- q)).
    { unfold round_positive.
      destruct (Qle_bool infinity _); [discriminate|].
      pose proof (pow2_pos (Z.max (ilog2 (- q)) (-1022) - 52)) as Hu.
      set (ulp := 2 ^ _) in *.
      destruct (rhe_near (- q / ulp)) as [Hlow _].
      assert (0 < - q / ulp) by (apply Qlt_shift_div_l; lra).
      assert (Hm : inject_Z (-1) < inject_Z (round_half_even (- q / ulp))).
      { change (inject_Z (-1)) with (-1 # 1). lra. }
      rewrite <- Zlt_Qlt in Hm.
      assert (Hm0 : (0 <= round_half_even (- q / ulp))%Z) by lia.
      rewrite Zle_Qle in Hm0. change (inject_Z 0) with 0 in Hm0.
      apply Qmult_le_0_compat; lra. }
    unfold half_ulp_above_2. split; intros H; lra.
  - apply Qgt_alt in Hc. now apply round_positive_gt_2.
Qed.

(** [x - y > 2.0] on floats holds exactly when the exact difference is
    more than half a unit in the last place above 2. *)
Lemma fsub_gt_2 x y : 2 < fsub x y <-> half_ulp_above_2 < x - y.
Proof. apply round_double_gt_2. Qed.

End FloatProps.

(** * Properties *)

Module Props.

Import Core Host Terms.

(** ** Lists and text *)

Lemma len_nonneg {A} (l : list A) : 0 <= len l.
Proof. unfold len. lia. Qed.

Lemma len_cons {A} (x : A) (l : list A) : len (x :: l) = len l + 1.
Proof. unfold len. simpl length. lia. Qed.

Lemma pop_last_take {A} (l : list A) :
  pop_last l = take (length l - 1) l.
Proof.
  unfold pop_last. rewrite removelast_firstn_len.
  f_equal. lia.
Qed.

Lemma len_pop_last {A} (l : list A) : l <> [] -> len (pop_last l) = len l - 1.
Proof.
  intros Hne. destruct l as [|x l]; [congruence|].
  rewrite pop_last_take. unfold len. rewrite length_take. simpl length. lia.
Qed.

Lemma pop_last_cons {A} (x y : A) (l : list A) :
  pop_last (x :: y :: l) = x :: pop_last (y :: l).
Proof. reflexivity. Qed.

Lemma join_empty_sep (items : list str) : join [] items = concat items.
Proof.
  induction items as [|x [|y rest] IH]; simpl in *.
  - reflexivity.
  - now rewrite app_nil_r.
  - now rewrite IH.
Qed.

(** ** What a save leaves alone *)

Lemma write_file_frame e s :
  _board (write_file e s) = _board s
  /\ MAX_BOARD_SIZE (write_file e s) = MAX_BOARD_SIZE s
  /\ clipboard (write_file e s) = clipboard s.
Proof. unfold write_file. destruct (disk_ok e); repeat split. Qed.

Lemma save_board_cases e force s :
  _save_board e force s = s \/ _save_board e force s = write_file e s.
Proof.
  unfold _save_board.
  destruct (negb (_board_modified s) && negb force); [now left|].
  destruct (flush_due e force s); [now right | now left].
Qed.

Lemma save_board_frame e force s :
  _board (_save_board e force s) = _board s
  /\ MAX_BOARD_SIZE (_save_board e force s) = MAX_BOARD_SIZE s
  /\ clipboard (_save_board e force s) = clipboard s.
Proof.
  destruct (save_board_cases e force s) as [-> | ->];
    [repeat split | apply write_file_frame].
Qed.

Lemma save_board_forced e s : _save_board e true s = write_file e s.
Proof.
  unfold _save_board, flush_due.
  now rewrite andb_false_r.
Qed.

(** ** Insertion *)

Lemma copy_to_board_frame e content s :
  let c := default (clipboard s) content in
  fst (copy_to_board e content s) = c
  /\ _board (snd (copy_to_board e content s))
     = inserted (MAX_BOARD_SIZE s) c (_board s)
  /\ MAX_BOARD_SIZE (snd (copy_to_board e content s)) = MAX_BOARD_SIZE s
  /\ clipboard (snd (copy_to_board e content s)) = clipboard s.
Proof.
  unfold copy_to_board, inserted.
  destruct content as [c|]; simpl default;
    match goal with |- context [head_is ?c ?b] => destruct (head_is c b) end;
    simpl; repeat split;
    match goal with
    | |- context [_save_board ?e ?f ?s] =>
        destruct (save_board_frame e f s) as (Hb & Hm & Hc);
        rewrite ?Hb, ?Hm, ?Hc; reflexivity
    end.
Qed.

Lemma inserted_len m content b :
  len (inserted m content b) <= len b + 1
  /\ (len b <= m -> len (inserted m content b) <= m).
Proof.
  unfold inserted.
  destruct (head_is content b); [lia|].
  destruct (Z.ltb_spec m (len (content :: b))) as [Hgt|Hle].
  - rewrite len_pop_last by discriminate. rewrite len_cons. lia.
  - rewrite len_cons in *. lia.
Qed.

Lemma inserted_head m content b :
  1 <= m -> head_is content (inserted m content b) = true.
Proof.
  intros Hm. unfold inserted.
  destruct (head_is content b) eqn:Hh; [exact Hh|].
  destruct (Z.ltb_spec m (len (content :: b))) as [Hgt|Hle].
  - destruct b as [|y b].
    + rewrite len_cons in Hgt. unfold len in Hgt. simpl in Hgt. lia.
    + rewrite pop_last_cons. simpl. now apply bool_decide_eq_true.
  - simpl. now apply bool_decide_eq_true.
Qed.

Lemma run_inserts_length calls s :
  length (run_inserts calls s) = length calls.
Proof.
  revert s. induction calls as [|[e c] rest IH]; intros s; simpl; auto.
Qed.

(** C1: starting from a board no longer than the maximum, the board is no
    longer than the maximum after each call of any sequence of
    [copy_to_board] calls (one state per call, the maximum itself never
    moving); a single call adds at most one entry to the board. *)
Theorem insert_keeps_bound (calls : list (env * option str)) (s : store) :
  len (_board s) <= MAX_BOARD_SIZE s ->
  Forall (fun s' => len (_board s') <= MAX_BOARD_SIZE s
                    /\ MAX_BOARD_SIZE s' = MAX_BOARD_SIZE s)
         (run_inserts calls s)
  /\ length (run_inserts calls s) = length calls
  /\ (forall e content,
        len (_board (snd (copy_to_board e content s))) <= len (_board s) + 1).
Proof.
  intros Hb. split; [|split].
  - revert s Hb. induction calls as [|[e c] rest IH]; intros s Hb; simpl.
    + constructor.
    + destruct (copy_to_board_frame e c s) as (_ & Hbd & Hmax & _).
      assert (Hb' : len (_board (snd (copy_to_board e c s)))
                    <= MAX_BOARD_SIZE s).
      { rewrite Hbd. now apply inserted_len. }
      constructor; [now split|].
      specialize (IH (snd (copy_to_board e c s))).
      rewrite Hmax in IH. now apply IH.
  - apply run_inserts_length.
  - intros e c. destruct (copy_to_board_frame e c s) as (_ & Hbd & _).
    rewrite Hbd. apply inserted_len.
Qed.

Lemma insert_keeps_bound_witness :
  Forall (fun s' => len (_board s') <= 2 /\ MAX_BOARD_SIZE s' = 2)
         (run_inserts
            [(Env (1 # 1) true, Some (py "a"));
             (Env (2 # 1) true, Some (py "b"));
             (Env (5 # 1) false, Some (py "c"));
             (Env (6 # 1) true, None)]
            (set_max 2 (initial [py "z"; py "y"] (py "clip")))).
Proof.
  apply (insert_keeps_bound _ (set_max 2 (initial [py "z"; py "y"] (py "clip")))).
  vm_compute. discriminate.
Defined.

(** C2: when the board is not empty and its first entry is the content
    being inserted, [copy_to_board] returns that content and the whole
    state (board, dirty flag, change counter and all the rest) is the one
    it was given; so the second of two consecutive insertions of the same
    content changes nothing. *)
Theorem copy_to_board_head_noop :
  (forall e content s c t,
      _board s = c :: t ->
      default (clipboard s) content = c ->
      copy_to_board e content s = (c, s))
  /\ (forall e1 e2 content s,
        1 <= MAX_BOARD_SIZE s ->
        let s1 := snd (copy_to_board e1 content s) in
        copy_to_board e2 content s1 = (fst (copy_to_board e1 content s), s1)).
Proof.
  assert (Hnoop : forall e content s,
             head_is (default (clipboard s) content) (_board s) = true ->
             copy_to_board e content s = (default (clipboard s) content, s)).
  { intros e content s Hh. unfold copy_to_board.
    destruct content as [c|]; simpl in *; now rewrite Hh. }
  split.
  - intros e content s c t Hb Hc. rewrite <- Hc. apply Hnoop.
    rewrite Hb, Hc. simpl. now apply bool_decide_eq_true.
  - intros e1 e2 content s Hm s1.
    destruct (copy_to_board_frame e1 content s) as (Hr & Hb & Hmax & Hclip).
    cbv zeta in Hr, Hb. subst s1.
    rewrite Hr, <- Hclip. apply Hnoop.
    rewrite Hb, Hclip. now apply inserted_head.
Qed.

Lemma copy_to_board_head_noop_witness :
  copy_to_board (Env (9 # 1) true) (Some (py "a"))
    (initial [py "a"; py "b"] [])
  = (py "a", initial [py "a"; py "b"] [])
  /\ copy_to_board (Env (9 # 1) true) (Some (py "n"))
       (snd (copy_to_board (Env (1 # 1) true) (Some (py "n"))
               (initial [py "a"; py "b"] [])))
     = (fst (copy_to_board (Env (1 # 1) true) (Some (py "n"))
               (initial [py "a"; py "b"] [])),
        snd (copy_to_board (Env (1 # 1) true) (Some (py "n"))
               (initial [py "a"; py "b"] []))).
Proof.
  split.
  - apply (proj1 copy_to_board_head_noop _ _ _ (py "a") [py "b"]);
      reflexivity.
  - apply (proj2 copy_to_board_head_noop
             (Env (1 # 1) true) (Env (9 # 1) true) (Some (py "n"))
             (initial [py "a"; py "b"] [])).
    vm_compute. discriminate.
Defined.

(** ** Pasting *)

Lemma all_valid_spec b indices :
  all_valid b indices = true <-> Forall (valid_index b) indices.
Proof.
  unfold valid_index.
  induction indices as [|idx rest IH]; simpl.
  - split; [constructor | reflexivity].
  - destruct (Z.ltb_spec idx 0) as [Hneg|Hnn]; simpl.
    + split; [discriminate | intros H; inversion H; subst; lia].
    + destruct (Z.leb_spec (len b) idx) as [Hbig|Hlt].
      * split; [discriminate | intros H; inversion H; subst; lia].
      * rewrite IH. split.
        -- intros H. constructor; [lia | exact H].
        -- intros H. now inversion H.
Qed.

Lemma item_at_lookup b idx :
  valid_index b idx -> b !! Z.to_nat idx = Some (item_at b idx).
Proof.
  intros [H0 Hlt]. unfold item_at.
  apply list_lookup_lookup_total_lt. unfold len in Hlt. lia.
Qed.

Lemma selected_items_lookup b indices :
  Forall (valid_index b) indices ->
  Forall2 (fun idx x => b !! Z.to_nat idx = Some x)
          indices (map (item_at b) indices).
Proof.
  induction 1 as [|idx rest Hidx _ IH]; simpl; constructor.
  - now apply item_at_lookup.
  - exact IH.
Qed.

Lemma py_newline : py (String "010"%char EmptyString) = newline.
Proof. reflexivity. Qed.

(** C3: [paste_combination] returns [False] and leaves everything as it
    was when some index is out of range; when it returns [True] every index
    is in range and the clipboard holds the referenced entries, in the
    order of the index list, one after the other with nothing in between
    (and it does return [True] when the board is not empty and all indices
    are in range).  [paste_all] on a non-empty board puts on the clipboard
    all entries in board order joined by a line feed; on an empty board it
    returns [False] and changes nothing.  On the board c, b, a the indices
    2, 0, 1 give acb, and [paste_all] gives c, b and a separated by line
    feeds. *)
Theorem paste_combination_order :
  (forall indices auto_paste s,
      Exists (fun idx => ~ valid_index (_board s) idx) indices ->
      paste_combination indices auto_paste s = (false, s))
  /\ (forall indices auto_paste s s',
        paste_combination indices auto_paste s = (true, s') ->
        Forall (valid_index (_board s)) indices
        /\ _board s' = _board s
        /\ exists items,
            Forall2 (fun idx x => _board s !! Z.to_nat idx = Some x)
                    indices items
            /\ clipboard s' = concat items)
  /\ (forall indices auto_paste s,
        _board s <> [] ->
        Forall (valid_index (_board s)) indices ->
        fst (paste_combination indices auto_paste s) = true)
  /\ (forall auto_paste s,
        _board s <> [] ->
        exists s',
          paste_all auto_paste s = (true, s')
          /\ _board s' = _board s
          /\ clipboard s' = join newline (_board s))
  /\ (forall auto_paste s,
        _board s = [] -> paste_all auto_paste s = (false, s))
  /\ (forall auto_paste s,
        _board s = [py "c"; py "b"; py "a"] ->
        clipboard (snd (paste_combination [2; 0; 1] auto_paste s)) = py "acb"
        /\ clipboard (snd (paste_all auto_paste s))
           = py "c" ++ newline ++ py "b" ++ newline ++ py "a").
Proof.
  repeat apply conj.
  - intros indices auto_paste s Hbad. unfold paste_combination.
    destruct (bool_decide (_board s = [])); [reflexivity|].
    destruct (all_valid (_board s) indices) eqn:Hv; [|reflexivity].
    apply all_valid_spec in Hv. exfalso.
    apply Exists_exists in Hbad as (idx & Hin & Hno).
    rewrite Forall_forall in Hv. auto.
  - intros indices auto_paste s s'. unfold paste_combination.
    destruct (bool_decide (_board s = [])); [discriminate|].
    destruct (all_valid (_board s) indices) eqn:Hv; [|discriminate].
    simpl negb. cbv iota. intros Heq.
    apply all_valid_spec in Hv. injection Heq as <-.
    split; [exact Hv|]. split.
    + destruct auto_paste; reflexivity.
    + exists (map (item_at (_board s)) indices). split.
      * now apply selected_items_lookup.
      * rewrite <- join_empty_sep. destruct auto_paste; reflexivity.
  - intros indices auto_paste s Hne Hv. unfold paste_combination.
    rewrite bool_decide_eq_false_2 by exact Hne.
    apply all_valid_spec in Hv. now rewrite Hv.
  - intros auto_paste s Hne. unfold paste_all.
    rewrite bool_decide_eq_false_2 by exact Hne.
    eexists. split; [reflexivity|].
    rewrite py_newline. destruct auto_paste; split; reflexivity.
  - intros auto_paste s He. unfold paste_all.
    now rewrite bool_decide_eq_true_2 by exact He.
  - intros auto_paste s Hb. unfold paste_combination, paste_all.
    rewrite Hb. destruct auto_paste; split; reflexivity.
Qed.

Lemma paste_combination_order_witness :
  paste_combination [0; 3] true (initial [py "c"; py "b"; py "a"] [])
  = (false, initial [py "c"; py "b"; py "a"] [])
  /\ fst (paste_combination [2; 2; 0] false
            (initial [py "c"; py "b"; py "a"] [])) = true
  /\ clipboard (snd (paste_combination [2; 0; 1] true
                       (initial [py "c"; py "b"; py "a"] []))) = py "acb".
Proof.
  destruct paste_combination_order as (Hbad & _ & Hok & _ & _ & Hex).
  split; [|split].
  - apply Hbad. apply Exists_cons_tl, Exists_cons_hd.
    unfold valid_index. vm_compute. intros [_ H]. discriminate H.
  - apply Hok; [discriminate|].
    repeat constructor; vm_compute; discriminate.
  - apply (Hex true (initial [py "c"; py "b"; py "a"] [])). reflexivity.
Defined.

(** ** Removal *)

(** C4: [drop_item] with an index returns [False] and leaves the state as
    it was exactly when the board is empty or the index is outside
    [0, len); otherwise it returns [True] and the board is the old one
    without that entry: one shorter, entries before the index where they
    were, entries after it moved one place towards the head. *)
Theorem drop_item_at (e : env) (index : Z) (s : store) :
  (_board s = [] \/ ~ valid_index (_board s) index ->
   drop_item e (Some index) s = (false, s))
  /\ (valid_index (_board s) index ->
      exists s',
        drop_item e (Some index) s = (true, s')
        /\ _board s' = take (Z.to_nat index) (_board s)
                       ++ drop (S (Z.to_nat index)) (_board s)
        /\ len (_board s') = len (_board s) - 1
        /\ (forall j : nat, (j < Z.to_nat index)%nat ->
                            _board s' !! j = _board s !! j)
        /\ (forall j : nat, (Z.to_nat index <= j)%nat ->
                            _board s' !! j = _board s !! S j))
  /\ (fst (drop_item e (Some index) s) = false <->
      _board s = [] \/ ~ valid_index (_board s) index).
Proof.
  assert (Hbad : _board s = [] \/ ~ valid_index (_board s) index ->
                 drop_item e (Some index) s = (false, s)).
  { intros H. unfold drop_item.
    destruct (bool_decide_reflect (_board s = [])) as [|Hne]; [reflexivity|].
    destruct H as [H|H]; [contradiction|].
    unfold in_range, valid_index in *.
    destruct (Z.leb_spec 0 index), (Z.ltb_spec index (len (_board s)));
      simpl; try reflexivity; lia. }
  assert (Hgood : valid_index (_board s) index ->
                  drop_item e (Some index) s
                  = (true, _save_board e false
                             (_mark_modified
                                (set_board (delete (Z.to_nat index) (_board s))
                                           s)))).
  { intros [H0 Hlt]. unfold drop_item.
    destruct (bool_decide_reflect (_board s = [])) as [He|Hne].
    { rewrite He in Hlt. unfold len in Hlt. simpl in Hlt. lia. }
    unfold in_range.
    destruct (Z.leb_spec 0 index), (Z.ltb_spec index (len (_board s)));
      simpl; try reflexivity; lia. }
  split; [exact Hbad|]. split.
  - intros Hv. eexists. split; [now apply Hgood|].
    destruct (save_board_frame e false
                (_mark_modified
                   (set_board (delete (Z.to_nat index) (_board s)) s)))
      as (-> & _ & _).
    simpl. destruct Hv as [H0 Hlt]. unfold len in *.
    repeat split.
    + apply delete_take_drop.
    + rewrite length_delete by (apply lookup_lt_is_Some; lia). lia.
    + intros j Hj. now apply list_lookup_delete_lt.
    + intros j Hj. now apply list_lookup_delete_ge.
  - split; [|intros H; now rewrite Hbad].
    intros Hf.
    destruct (bool_decide_reflect (_board s = [])) as [He|Hne]; [now left|].
    right. intros Hv. rewrite (Hgood Hv) in Hf. discriminate.
Qed.

Lemma drop_item_at_witness :
  drop_item (Env (1 # 1) true) (Some 7) (initial [py "c"; py "b"; py "a"] [])
  = (false, initial [py "c"; py "b"; py "a"] [])
  /\ exists s',
      drop_item (Env (1 # 1) true) (Some 1)
                (initial [py "c"; py "b"; py "a"] []) = (true, s')
      /\ _board s' = [py "c"; py "a"].
Proof.
  split.
  - apply (proj1 (drop_item_at (Env (1 # 1) true) 7
                    (initial [py "c"; py "b"; py "a"] []))).
    right. unfold valid_index. vm_compute. intros [_ H]. discriminate H.
  - destruct (proj1 (proj2 (drop_item_at (Env (1 # 1) true) 1
                              (initial [py "c"; py "b"; py "a"] []))))
      as (s' & Hd & Hb & _).
    + unfold valid_index. vm_compute. split; [discriminate | reflexivity].
    + exists s'. split; [exact Hd | exact Hb].
Defined.

(** ** Persistence policy *)

Lemma write_file_effects e s :
  effects (write_file e s) = write_attempt e (_board s) :: effects s.
Proof. unfold write_file, write_attempt. now destruct (disk_ok e). Qed.

Lemma write_file_ok e s :
  disk_ok e = true ->
  clean (write_file e s) /\ _last_saved_time (write_file e s) = now e.
Proof. intros Hok. unfold write_file, clean. rewrite Hok. repeat split. Qed.

Lemma write_file_failed e s :
  disk_ok e = false ->
  _board_modified (write_file e s) = _board_modified s
  /\ _changes_since_save (write_file e s) = _changes_since_save s
  /\ _last_saved_time (write_file e s) = _last_saved_time s.
Proof. intros Hok. unfold write_file. rewrite Hok. repeat split. Qed.

Lemma cons_neq_self {A} (x : A) (l : list A) : x :: l <> l.
Proof.
  intros H. apply (f_equal (@length A)) in H. simpl in H. lia.
Qed.

Lemma Qgtb_false_of_lt (x y : Q) : (x < y)%Q -> Qgtb x y = false.
Proof.
  intros H. unfold Qgtb.
  apply negb_false_iff, Qle_bool_iff, Qlt_le_weak, H.
Qed.

(** The time test of [_save_board], on floats, in terms of the exact
    difference of the two time stamps. *)
Lemma time_test_spec (x y : Q) :
  Qgtb (Float.fsub x y) AUTO_SAVE_DELAY = true
  <-> (Float.half_ulp_above_2 < x - y)%Q.
Proof.
  rewrite <- FloatProps.fsub_gt_2. unfold Qgtb, AUTO_SAVE_DELAY.
  rewrite negb_true_iff. split.
  - intros H. destruct (Qlt_le_dec 2 (Float.fsub x y)) as [Hlt|Hle];
      [exact Hlt|].
    apply Qle_bool_iff in Hle. congruence.
  - intros H. destruct (Qle_bool (Float.fsub x y) 2) eqn:Hle;
      [|reflexivity].
    apply Qle_bool_iff in Hle. lra.
Qed.

Lemma time_test_false_of_lt (x y : Q) :
  (x - y < AUTO_SAVE_DELAY)%Q ->
  Qgtb (Float.fsub x y) AUTO_SAVE_DELAY = false.
Proof.
  intros H.
  destruct (Qgtb (Float.fsub x y) AUTO_SAVE_DELAY) eqn:Hg; [|reflexivity].
  apply time_test_spec in Hg.
  unfold Float.half_ulp_above_2, AUTO_SAVE_DELAY in *. lra.
Qed.

(** C7: an unforced save does nothing (the state, trace included, is the
    one it was given) when fewer than [SAVE_BATCH_SIZE] changes are pending
    and less than [AUTO_SAVE_DELAY] seconds have passed since the last
    save, and also whenever the board is not dirty; a forced save always
    runs the write; and whenever a save has written the file, the dirty
    flag is down, the counter is zero and the time of the last save is the
    time of this call. *)
Theorem save_policy (e : env) (s : store) :
  (_changes_since_save s < SAVE_BATCH_SIZE ->
   (now e - _last_saved_time s < AUTO_SAVE_DELAY)%Q ->
   _save_board e false s = s)
  /\ (_board_modified s = false -> _save_board e false s = s)
  /\ effects (_save_board e true s)
     = write_attempt e (_board s) :: effects s
  /\ (forall force written,
        effects (_save_board e force s) = FileWritten written :: effects s ->
        written = _board s
        /\ clean (_save_board e force s)
        /\ _last_saved_time (_save_board e force s) = now e).
Proof.
  repeat apply conj.
  - intros Hfew Hsoon. unfold _save_board, flush_due.
    destruct (negb (_board_modified s) && negb false); [reflexivity|].
    rewrite (time_test_false_of_lt _ _ Hsoon).
    destruct (Z.leb_spec SAVE_BATCH_SIZE (_changes_since_save s)); [lia|].
    reflexivity.
  - intros Hclean. unfold _save_board. now rewrite Hclean.
  - rewrite save_board_forced. apply write_file_effects.
  - intros force written Heff.
    destruct (save_board_cases e force s) as [Hs | Hs]; rewrite Hs in *.
    + symmetry in Heff. now apply cons_neq_self in Heff.
    + rewrite write_file_effects in Heff. unfold write_attempt in Heff.
      destruct (disk_ok e) eqn:Hok; [|discriminate].
      injection Heff as Hw.
      destruct (write_file_ok e s Hok) as [Hc Ht].
      split; [now symmetry | split; assumption].
Qed.

Lemma save_policy_witness :
  _save_board (Env (11 # 10) true) false
    (_mark_modified (initial [py "a"] []))
  = _mark_modified (initial [py "a"] [])
  /\ _save_board (Env (50 # 1) true) false (initial [py "a"] [])
     = initial [py "a"] []
  /\ clean (_save_board (Env (50 # 1) true) false
              (_mark_modified (initial [py "a"] []))).
Proof.
  split; [|split].
  - apply (proj1 (save_policy (Env (11 # 10) true)
                    (_mark_modified (initial [py "a"] []))));
      reflexivity.
  - apply (proj1 (proj2 (save_policy (Env (50 # 1) true)
                           (initial [py "a"] [])))).
    reflexivity.
  - apply (proj2 (proj2 (proj2 (save_policy (Env (50 # 1) true)
                                  (_mark_modified (initial [py "a"] [])))))
             false [py "a"]).
    reflexivity.
Defined.

(** ** Clearing *)

(** C5, counterexample: when the write of the board file fails, the state
    after [clear_board] is still dirty, with one change pending. *)
Lemma clear_board_dirty_when_write_fails :
  ~ clear_leaves_clean (Env (1 # 1) false) (initial [py "x"] [])
  /\ _board_modified
       (snd (clear_board (Env (1 # 1) false) (initial [py "x"] []))) = true
  /\ _changes_since_save
       (snd (clear_board (Env (1 # 1) false) (initial [py "x"] []))) = 1.
Proof.
  split; [|split; reflexivity].
  intros (_ & Hmod & _). vm_compute in Hmod. discriminate Hmod.
Qed.

(** C5, amended: [clear_board] always returns and leaves an empty board and
    always runs the forced write, with the empty board as its content; when
    that write succeeds nothing is pending afterwards and the time of the
    last save is the time of the call; when it fails the dirty flag is up
    and the counter is one more than before. *)
Theorem clear_board_flushes (e : env) (s : store) :
  fst (clear_board e s) = []
  /\ _board (snd (clear_board e s)) = []
  /\ effects (snd (clear_board e s)) = write_attempt e [] :: effects s
  /\ (disk_ok e = true ->
      clean (snd (clear_board e s))
      /\ _last_saved_time (snd (clear_board e s)) = now e)
  /\ (disk_ok e = false ->
      _board_modified (snd (clear_board e s)) = true
      /\ _changes_since_save (snd (clear_board e s))
         = _changes_since_save s + 1).
Proof.
  unfold clear_board. cbn [fst snd]. rewrite save_board_forced.
  set (s1 := _mark_modified (set_board [] s)).
  destruct (write_file_frame e s1) as (Hb & _ & _).
  repeat apply conj.
  - now rewrite Hb.
  - now rewrite Hb.
  - now rewrite write_file_effects.
  - intros Hok. now apply write_file_ok.
  - intros Hok.
    destruct (write_file_failed e s1 Hok) as (-> & -> & _). now split.
Qed.

Lemma clear_board_flushes_witness :
  clean (snd (clear_board (Env (7 # 1) true)
                (_mark_modified (initial [py "x"; py "y"] []))))
  /\ _board_modified
       (snd (clear_board (Env (7 # 1) false) (initial [py "x"] []))) = true.
Proof.
  split.
  - apply (proj1 (proj2 (proj2 (proj2
             (clear_board_flushes (Env (7 # 1) true)
                (_mark_modified (initial [py "x"; py "y"] []))))))).
    reflexivity.
  - apply (proj2 (proj2 (proj2 (proj2
             (clear_board_flushes (Env (7 # 1) false)
                (initial [py "x"] [])))))).
    reflexivity.
Defined.

(** ** Changing the maximum *)

Lemma take_pop_last {A} (n : nat) (l : list A) :
  (n < length l)%nat -> take n (pop_last l) = take n l.
Proof.
  intros Hn. rewrite pop_last_take, take_take. f_equal. lia.
Qed.

(** The loop stops on the first [max 1 size] entries and reports whether it
    removed anything. *)
Lemma trim_loop_spec size b changed :
  trim_loop size b changed
  = (take (Z.to_nat (Z.max 1 size)) b,
     changed || (Z.max 1 size <? len b)).
Proof.
  funelim (trim_loop size b changed).
  - rewrite H, e, orb_true_r. simpl orb.
    pose proof (proj1 (Z.ltb_lt _ _) e) as Hlt. unfold len in Hlt.
    rewrite take_pop_last by lia. reflexivity.
  - rewrite e, orb_false_r.
    pose proof (proj1 (Z.ltb_ge _ _) e) as Hge. unfold len in Hge.
    rewrite take_ge by lia. reflexivity.
Qed.

(** C6: [set_max_board_size] sets the maximum to [max 1 size] and keeps
    the first (most recent) [max 1 size] entries of the board.  When the
    board was longer than the new maximum, its length is the new maximum
    afterwards and the forced write has run on the shortened board, after
    which, the write having succeeded, nothing is pending; when it was not
    longer, only the maximum changes.  With size 2 and five entries the
    board is the first two entries and, the disk permitting, these two are
    what the file now holds. *)
Theorem set_max_board_size_trims (e : env) (size : Z) (s : store) :
  let m := Z.max 1 size in
  let s' := set_max_board_size e size s in
  MAX_BOARD_SIZE s' = m
  /\ _board s' = take (Z.to_nat m) (_board s)
  /\ (m < len (_board s) ->
      len (_board s') = m
      /\ effects s' = write_attempt e (_board s') :: effects s
      /\ (disk_ok e = true -> clean s' /\ _last_saved_time s' = now e))
  /\ (len (_board s) <= m -> s' = set_max m s)
  /\ (forall x0 x1 x2 x3 x4,
        size = 2 -> _board s = [x0; x1; x2; x3; x4] ->
        _board s' = [x0; x1]
        /\ (disk_ok e = true ->
            effects s' = FileWritten [x0; x1] :: effects s)).
Proof.
  intros m s'.
  assert (Hs' : s' = if m <? len (_board s)
                     then _save_board e true
                            (_mark_modified
                               (set_board (take (Z.to_nat m) (_board s))
                                          (set_max m s)))
                     else set_board (take (Z.to_nat m) (_board s))
                                    (set_max m s)).
  { subst s'. unfold set_max_board_size. cbn [_board set_max].
    rewrite trim_loop_spec. fold m. simpl orb.
    now destruct (m <? len (_board s)). }
  assert (Hmax : MAX_BOARD_SIZE s' = m).
  { rewrite Hs'. destruct (m <? len (_board s)); [|reflexivity].
    now destruct (save_board_frame e true
                    (_mark_modified
                       (set_board (take (Z.to_nat m) (_board s))
                                  (set_max m s)))) as (_ & -> & _). }
  assert (Hboard : _board s' = take (Z.to_nat m) (_board s)).
  { rewrite Hs'. destruct (m <? len (_board s)); [|reflexivity].
    now destruct (save_board_frame e true
                    (_mark_modified
                       (set_board (take (Z.to_nat m) (_board s))
                                  (set_max m s)))) as (-> & _ & _). }
  assert (Hlong : m < len (_board s) ->
                  effects s' = write_attempt e (_board s') :: effects s
                  /\ (disk_ok e = true ->
                      clean s' /\ _last_saved_time s' = now e)).
  { intros Hlt. rewrite Hboard. rewrite Hs'.
    destruct (Z.ltb_spec m (len (_board s))); [|lia].
    rewrite save_board_forced. split.
    - now rewrite write_file_effects.
    - intros Hok. now apply write_file_ok. }
  repeat apply conj.
  - exact Hmax.
  - exact Hboard.
  - intros Hlt. split; [|now apply Hlong].
    rewrite Hboard. unfold len in *. rewrite length_take. subst m. lia.
  - intros Hle. rewrite Hs'.
    destruct (Z.ltb_spec m (len (_board s))); [lia|].
    unfold len in Hle. rewrite take_ge by lia.
    now destruct s.
  - intros x0 x1 x2 x3 x4 Hsize Hfive. split.
    + rewrite Hboard. subst m. rewrite Hsize, Hfive. reflexivity.
    + intros Hok. destruct Hlong as [Heff _].
      * subst m. rewrite Hsize, Hfive. reflexivity.
      * rewrite Heff, Hboard. unfold write_attempt. rewrite Hok.
        subst m. rewrite Hsize, Hfive. reflexivity.
Qed.

Lemma set_max_board_size_trims_witness :
  _board (set_max_board_size (Env (4 # 1) true) 2
            (initial [py "e"; py "d"; py "c"; py "b"; py "a"] []))
  = [py "e"; py "d"]
  /\ effects (set_max_board_size (Env (4 # 1) true) 2
                (initial [py "e"; py "d"; py "c"; py "b"; py "a"] []))
     = [FileWritten [py "e"; py "d"]]
  /\ clean (set_max_board_size (Env (4 # 1) true) 2
              (initial [py "e"; py "d"; py "c"; py "b"; py "a"] []))
  /\ set_max_board_size (Env (4 # 1) true) (-3) (initial [py "a"] [])
     = set_max 1 (initial [py "a"] []).
Proof.
  destruct (set_max_board_size_trims (Env (4 # 1) true) 2
              (initial [py "e"; py "d"; py "c"; py "b"; py "a"] []))
    as (_ & _ & Hlong & _ & Hfive).
  destruct (Hfive (py "e") (py "d") (py "c") (py "b") (py "a")
              eq_refl eq_refl) as [Hb Hw].
  destruct Hlong as (_ & _ & Hclean); [reflexivity|].
  split; [exact Hb|]. split; [exact (Hw eq_refl)|].
  split; [exact (proj1 (Hclean eq_refl))|].
  apply (proj1 (proj2 (proj2 (proj2
           (set_max_board_size_trims (Env (4 # 1) true) (-3)
              (initial [py "a"] [])))))).
  vm_compute. discriminate.
Defined.

(** ** Previews *)

(** What the loop of [get_board_preview] has stored under key [i] once it
    has run over [items] from index [k] on. *)
Lemma preview_loop_lookup preview_max items :
  forall (k : Z) (board_sheet : gmap Z str) (i : Z),
    preview_loop preview_max k items board_sheet !! i
    = if (k <=? i) && (i <? k + len items)
      then (fun item => sheet_line i (preview_of preview_max item))
             <$> items !! Z.to_nat (i - k)
      else board_sheet !! i.
Proof.
  induction items as [|item rest IH]; intros k board_sheet i;
    cbn [preview_loop].
  - change (len (@nil str)) with 0.
    destruct (Z.leb_spec k i), (Z.ltb_spec i (k + 0)); simpl;
      try reflexivity; lia.
  - rewrite IH. rewrite len_cons. pose proof (len_nonneg rest) as Hr.
    destruct (Z.leb_spec (k + 1) i) as [Hgt|Hle]; simpl.
    + destruct (Z.leb_spec k i); [|lia]. simpl.
      destruct (Z.ltb_spec i (k + 1 + len rest)),
               (Z.ltb_spec i (k + (len rest + 1))); try lia.
      * replace (Z.to_nat (i - k)) with (S (Z.to_nat (i - (k + 1))))
          by lia.
        reflexivity.
      * rewrite lookup_insert_ne by lia. reflexivity.
    + destruct (Z.leb_spec k i) as [Hki|Hki]; simpl.
      * assert (i = k) as -> by lia.
        destruct (Z.ltb_spec k (k + (len rest + 1))); [|lia].
        rewrite lookup_insert_eq. replace (k - k) with 0 by lia.
        reflexivity.
      * rewrite lookup_insert_ne by lia. reflexivity.
Qed.

Lemma get_board_preview_lookup preview_max s i :
  get_board_preview preview_max s !! i
  = if (0 <=? i) && (i <? len (_board s))
    then (fun item => sheet_line i (preview_of preview_max item))
           <$> _board s !! Z.to_nat i
    else None.
Proof.
  unfold get_board_preview. rewrite preview_loop_lookup.
  rewrite Z.sub_0_r, Z.add_0_l, lookup_empty. reflexivity.
Qed.

Lemma replace_char_absent old new text :
  Forall (fun c => c <> old) text -> replace_char old new text = text.
Proof.
  unfold replace_char. induction 1 as [|c text Hc _ IH]; simpl.
  - reflexivity.
  - apply N.eqb_neq in Hc. rewrite Hc. simpl. now f_equal.
Qed.

(** C8, counterexample: for the board holding the single entry a and 30
    characters allowed, the wording gives the value a under key 0, while
    the code stores the text 0: a there.  Besides, with the bound -1 the
    entry abc keeps its first two characters. *)
Lemma preview_value_carries_index :
  claimed_preview 8629%N (py "...") 30 (py "a") = py "a"
  /\ get_board_preview 30 (initial [py "a"] []) !! 0 = Some (py "0: a")
  /\ get_board_preview 30 (initial [py "a"] []) !! 0
     <> Some (claimed_preview 8629%N (py "...") 30 (py "a"))
  /\ get_board_preview (-1) (initial [py "abc"] []) !! 0
     = Some (py "0: ab...").
Proof.
  split; [reflexivity|]. split; [reflexivity|].
  split; [vm_compute; discriminate|].
  reflexivity.
Qed.

(** C8, amended: there is one placeholder text, free of line feeds, such
    that for every board the keys of the preview are exactly the indices
    of the board, for every bound; and for a bound that is not negative
    the value under index [i] is the decimal index, a colon and a space,
    followed by the entry cut to the bound with three dots appended
    exactly when it was longer than the bound, in which every line feed is
    replaced by the placeholder.  An entry no longer than the bound and
    without line feeds follows the prefix unchanged. *)
Theorem preview_lines :
  exists placeholder : str,
    Forall (fun c => c <> 10%N) placeholder
    /\ forall s : store,
        (forall preview_max i,
            is_Some (get_board_preview preview_max s !! i)
            <-> valid_index (_board s) i)
        /\ (forall preview_max i item,
              0 <= preview_max ->
              0 <= i ->
              _board s !! Z.to_nat i = Some item ->
              get_board_preview preview_max s !! i
              = Some (str_of_int i ++ py ": "
                      ++ replace_char 10%N placeholder
                           (if len item <=? preview_max then item
                            else take (Z.to_nat preview_max) item
                                 ++ py "..."))
              /\ (len item <= preview_max ->
                  Forall (fun c => c <> 10%N) item ->
                  get_board_preview preview_max s !! i
                  = Some (str_of_int i ++ py ": " ++ item))).
Proof.
  exists newline_mark. split.
  { repeat constructor; discriminate. }
  intros s. split.
  - intros preview_max i. rewrite get_board_preview_lookup.
    unfold valid_index.
    destruct (Z.leb_spec 0 i), (Z.ltb_spec i (len (_board s))); simpl.
    + rewrite fmap_is_Some, lookup_lt_is_Some. unfold len in *.
      split; lia.
    + split; [intros [? ?]; discriminate | lia].
    + split; [intros [? ?]; discriminate | lia].
    + split; [intros [? ?]; discriminate | lia].
  - intros preview_max i item Hpm Hi Hitem.
    assert (Hval : get_board_preview preview_max s !! i
                   = Some (str_of_int i ++ py ": "
                           ++ replace_char 10%N newline_mark
                                (if len item <=? preview_max then item
                                 else take (Z.to_nat preview_max) item
                                      ++ py "..."))).
    { rewrite get_board_preview_lookup.
      assert (Hlt : (Z.to_nat i < length (_board s))%nat)
        by (apply lookup_lt_is_Some; eauto).
      destruct (Z.leb_spec 0 i); [|lia].
      destruct (Z.ltb_spec i (len (_board s))); [|unfold len in *; lia].
      simpl. rewrite Hitem. simpl. f_equal.
      unfold sheet_line, preview_of, slice_to, ellipsis. do 3 f_equal.
      destruct (Z.ltb_spec preview_max (len item)),
               (Z.leb_spec (len item) preview_max); try lia.
      - destruct (Z.leb_spec 0 preview_max); [reflexivity | lia].
      - reflexivity. }
    split; [exact Hval|].
    intros Hshort Hnl. rewrite Hval.
    destruct (Z.leb_spec (len item) preview_max); [|lia].
    now rewrite replace_char_absent.
Qed.

Lemma preview_lines_witness :
  get_board_preview 3 (initial [py "hello"; py "ok"] []) !! 1
  = Some (py "1: ok")
  /\ get_board_preview 3 (initial [py "hello"; py "ok"] []) !! 0
     = Some (py "0: hel...")
  /\ is_Some (get_board_preview 3 (initial [py "hello"; py "ok"] []) !! 1).
Proof.
  destruct preview_lines as (placeholder & _ & Hall).
  destruct (Hall (initial [py "hello"; py "ok"] [])) as [Hkeys Hvals].
  split; [|split].
  - apply (proj2 (Hvals 3 1 (py "ok") ltac:(lia) ltac:(lia) eq_refl)).
    + vm_compute. discriminate.
    + repeat constructor; discriminate.
  - apply (proj1 (Hvals 3 0 (py "hello") ltac:(lia) ltac:(lia) eq_refl)).
  - apply (proj2 (Hkeys 3 1)). unfold valid_index. vm_compute.
    split; [discriminate | reflexivity].
Defined.

(** ** The paste action of the dispatcher *)

Lemma failure_lookup msg :
  failure msg !! py "success" = Some (RBool false)
  /\ failure msg !! py "error" = Some (RStr msg).
Proof.
  unfold failure. split.
  - apply lookup_insert_eq.
  - rewrite lookup_insert_ne by (vm_compute; discriminate).
    apply lookup_singleton_eq.
Qed.

(** The [paste] branch for an integer index, after the dispatch. *)
Lemma handle_paste_int e message s i :
  message !! py "action" = Some (JStr (py "paste")) ->
  message !! py "index" = Some (JInt i) ->
  handle_message e message s
  = match (if 0 <=? i then get_board_item i s else None) with
    | Some content =>
        if bool_decide (content = [])
        then (failure (py "Invalid index or item not found"), s)
        else ({[ py "success" := RBool true;
                 py "content" := RStr content ]}, s)
    | None => (failure (py "Invalid index or item not found"), s)
    end.
Proof.
  intros Ha Hi. unfold handle_message. rewrite Ha, Hi.
  cbn [default from_option id]. decide_actions. cbn [as_int].
  destruct (0 <=? i); [|reflexivity].
  destruct (get_board_item i s) as [content|]; [|reflexivity].
  now destruct (bool_decide (content = [])).
Qed.

Lemma get_board_item_spec i s :
  get_board_item i s
  = if (0 <=? i) && (i <? len (_board s)) then _board s !! Z.to_nat i
    else None.
Proof.
  unfold get_board_item, in_range.
  destruct (Z.leb_spec 0 i), (Z.ltb_spec i (len (_board s))); simpl;
    try reflexivity.
  symmetry. now apply item_at_lookup.
Qed.

(** C9: a [paste] request whose integer index is outside the board gets
    the response with [success] false and an [error] text, and the state,
    board included, is the one before the request. *)
Theorem paste_out_of_range (e : env) (message : gmap str jval)
  (s : store) (i : Z) :
  message !! py "action" = Some (JStr (py "paste")) ->
  message !! py "index" = Some (JInt i) ->
  ~ valid_index (_board s) i ->
  let resp := fst (handle_message e message s) in
  let s' := snd (handle_message e message s) in
  resp !! py "success" = Some (RBool false)
  /\ resp !! py "error" = Some (RStr (py "Invalid index or item not found"))
  /\ resp !! py "content" = None
  /\ s' = s
  /\ get_board s' = get_board s.
Proof.
  intros Ha Hi Hout resp s'. subst resp s'.
  rewrite (handle_paste_int e message s i Ha Hi).
  rewrite get_board_item_spec.
  assert (Hnone : (if 0 <=? i
                   then if (0 <=? i) && (i <? len (_board s))
                        then _board s !! Z.to_nat i else None
                   else None) = None).
  { unfold valid_index in Hout.
    destruct (Z.leb_spec 0 i), (Z.ltb_spec i (len (_board s))); simpl;
      try reflexivity; lia. }
  rewrite Hnone. cbn [fst snd].
  destruct (failure_lookup (py "Invalid index or item not found"))
    as [Hs He].
  split; [exact Hs|]. split; [exact He|]. split; [|split; reflexivity].
  unfold failure. rewrite !lookup_insert_ne by (vm_compute; discriminate).
  apply lookup_singleton_ne. vm_compute. discriminate.
Qed.

Lemma paste_out_of_range_witness :
  fst (handle_message (Env (3 # 1) true)
         {[ py "action" := JStr (py "paste"); py "index" := JInt 5 ]}
         (initial [py "x"; py "y"] []))
    !! py "success" = Some (RBool false)
  /\ snd (handle_message (Env (3 # 1) true)
            {[ py "action" := JStr (py "paste"); py "index" := JInt 5 ]}
            (initial [py "x"; py "y"] []))
     = initial [py "x"; py "y"] [].
Proof.
  destruct (paste_out_of_range (Env (3 # 1) true)
              {[ py "action" := JStr (py "paste"); py "index" := JInt 5 ]}
              (initial [py "x"; py "y"] []) 5)
    as (Hs & _ & _ & Hst & _).
  - vm_compute. reflexivity.
  - vm_compute. reflexivity.
  - unfold valid_index. vm_compute. intros [_ H]. discriminate H.
  - split; [exact Hs | exact Hst].
Defined.

(** C10: a [paste] request for an index that is in range fails when the
    entry there is the empty string: [get_board_item] does return the
    entry, yet the response is the one with [success] false and the error
    text, and no [content]; the state is unchanged. *)
Theorem paste_empty_entry_fails (e : env) (message : gmap str jval)
  (s : store) (i : Z) :
  message !! py "action" = Some (JStr (py "paste")) ->
  message !! py "index" = Some (JInt i) ->
  0 <= i ->
  _board s !! Z.to_nat i = Some [] ->
  valid_index (_board s) i
  /\ get_board_item i s = Some []
  /\ handle_message e message s
     = (failure (py "Invalid index or item not found"), s)
  /\ fst (handle_message e message s) !! py "success" = Some (RBool false)
  /\ fst (handle_message e message s) !! py "content" = None.
Proof.
  intros Ha Hi H0 Hentry.
  assert (Hv : valid_index (_board s) i).
  { split; [exact H0|].
    assert ((Z.to_nat i < length (_board s))%nat)
      by (apply lookup_lt_is_Some; eauto).
    unfold len. lia. }
  assert (Hget : get_board_item i s = Some []).
  { rewrite get_board_item_spec. destruct Hv as [_ Hlt].
    destruct (Z.leb_spec 0 i), (Z.ltb_spec i (len (_board s))); simpl;
      try lia. exact Hentry. }
  assert (Hresp : handle_message e message s
                  = (failure (py "Invalid index or item not found"), s)).
  { rewrite (handle_paste_int e message s i Ha Hi), Hget.
    destruct (Z.leb_spec 0 i); [reflexivity | lia]. }
  split; [exact Hv|]. split; [exact Hget|]. split; [exact Hresp|]. split.
  - rewrite Hresp. apply failure_lookup.
  - rewrite Hresp. cbn [fst]. unfold failure.
    rewrite !lookup_insert_ne by (vm_compute; discriminate).
    apply lookup_singleton_ne. vm_compute. discriminate.
Qed.

Lemma paste_empty_entry_fails_witness :
  _board (snd (copy_to_board (Env (1 # 1) true) (Some [])
                 (initial [py "x"] []))) = [[]; py "x"]
  /\ handle_message (Env (3 # 1) true)
       {[ py "action" := JStr (py "paste"); py "index" := JInt 0 ]}
       (snd (copy_to_board (Env (1 # 1) true) (Some [])
               (initial [py "x"] [])))
     = (failure (py "Invalid index or item not found"),
        snd (copy_to_board (Env (1 # 1) true) (Some [])
               (initial [py "x"] []))).
Proof.
  split; [reflexivity|].
  apply (paste_empty_entry_fails (Env (3 # 1) true)
           {[ py "action" := JStr (py "paste"); py "index" := JInt 0 ]}
           (snd (copy_to_board (Env (1 # 1) true) (Some [])
                   (initial [py "x"] []))) 0).
  - vm_compute. reflexivity.
  - vm_compute. reflexivity.
  - lia.
  - reflexivity.
Defined.

End Props.

(** * Further properties of the board engine *)

Module More.

Import Core Host Terms CoreRest Api Requests Props.

(** ** Frames of the operations *)

Lemma mark_save_frame e force b s :
  let s' := _save_board e force (_mark_modified (set_board b s)) in
  _board s' = b
  /\ MAX_BOARD_SIZE s' = MAX_BOARD_SIZE s
  /\ clipboard s' = clipboard s.
Proof.
  intros s'. subst s'.
  destruct (save_board_frame e force (_mark_modified (set_board b s)))
    as (-> & -> & ->).
  repeat split.
Qed.

Lemma inserted_take m c b :
  1 <= m -> inserted m c (take (Z.to_nat m) b) = take (Z.to_nat m) (push c b).
Proof.
  intros Hm. unfold inserted, push.
  assert (Hhead : head_is c (take (Z.to_nat m) b) = head_is c b).
  { destruct b as [|x b]; [now destruct (Z.to_nat m)|].
    destruct (Z.to_nat m) as [|n] eqn:Hn; [lia|]. reflexivity. }
  rewrite Hhead. destruct (head_is c b); [reflexivity|].
  destruct (Z.ltb_spec m (len (c :: take (Z.to_nat m) b))) as [Hgt|Hle].
  - rewrite pop_last_take. simpl length. rewrite Nat.sub_succ, Nat.sub_0_r.
    rewrite len_cons in Hgt. unfold len in Hgt.
    rewrite length_take in *.
    replace (length b `min` Z.to_nat m)%nat with (Z.to_nat m) by lia.
    replace (Z.to_nat m `min` length b)%nat with (Z.to_nat m) in * by lia.
    destruct (Z.to_nat m) as [|n] eqn:Hn; [lia|].
    simpl. f_equal. rewrite take_take. f_equal. lia.
  - rewrite len_cons in Hle. unfold len in Hle. rewrite length_take in Hle.
    assert (Hshort : (length b < Z.to_nat m)%nat) by lia.
    rewrite (take_ge b) by lia.
    rewrite take_ge by (simpl; lia). reflexivity.
Qed.

Lemma no_adjacent_dup_take n l :
  no_adjacent_dup l -> no_adjacent_dup (take n l).
Proof.
  revert n. induction l as [|x [|y rest] IH]; intros n H.
  - now destruct n.
  - destruct n as [|[|n]]; simpl; exact I.
  - destruct H as [Hxy Hrest]. destruct n as [|[|n]]; simpl; try exact I.
    split; [exact Hxy|]. apply (IH (S n)). exact Hrest.
Qed.

Lemma head_is_false_cons c x l : head_is c (x :: l) = false -> c <> x.
Proof.
  simpl. intros H Heq. apply bool_decide_eq_false in H. congruence.
Qed.

(** ** What an insertion leaves in the board *)

(** X1: After [copy_to_board] with a maximum of at least one, the content is
    the first entry of the board: [get_board_item 0] returns it and
    [paste_from_board 0] puts it back on the clipboard. *)
Theorem copy_to_board_then_read (e : env) (content : option str)
  (s : store) :
  1 <= MAX_BOARD_SIZE s ->
  let c := fst (copy_to_board e content s) in
  let s' := snd (copy_to_board e content s) in
  c = default (clipboard s) content
  /\ _board s' !! 0%nat = Some c
  /\ get_board_item 0 s' = Some c
  /\ forall auto_paste,
      fst (paste_from_board 0 auto_paste s') = true
      /\ clipboard (snd (paste_from_board 0 auto_paste s')) = c.
Proof.
  intros Hm c s'.
  destruct (copy_to_board_frame e content s) as (Hc & Hb & _ & _).
  cbv zeta in Hc, Hb. fold c in Hc. fold s' in Hb.
  pose proof (inserted_head (MAX_BOARD_SIZE s) c (_board s) Hm) as Hh.
  rewrite <- Hc in Hb. rewrite <- Hb in Hh.
  destruct (_board s') as [|x rest] eqn:Hbs; [discriminate|].
  simpl in Hh. apply bool_decide_eq_true in Hh. subst x.
  split; [exact Hc|]. split; [reflexivity|]. split.
  - unfold get_board_item, in_range. rewrite Hbs, len_cons.
    pose proof (len_nonneg rest).
    destruct (Z.ltb_spec 0 (len rest + 1)); [reflexivity | lia].
  - intros auto_paste. unfold paste_from_board. rewrite Hbs, len_cons.
    pose proof (len_nonneg rest).
    destruct (Z.leb_spec (len rest + 1) 0); [lia|].
    simpl. destruct auto_paste; split; reflexivity.
Qed.

Lemma copy_to_board_then_read_witness :
  get_board_item 0
    (snd (copy_to_board (Env (1 # 1) true) None
            (initial [py "old"] (py "new")))) = Some (py "new").
Proof.
  apply (copy_to_board_then_read (Env (1 # 1) true) None
           (initial [py "old"] (py "new"))).
  vm_compute. discriminate.
Defined.

Lemma after_inserts_frame calls s :
  MAX_BOARD_SIZE (after_inserts calls s) = MAX_BOARD_SIZE s
  /\ clipboard (after_inserts calls s) = clipboard s.
Proof.
  revert s. induction calls as [|[e c] rest IH]; intros s; [now split|].
  unfold after_inserts in *. simpl.
  destruct (copy_to_board_frame e c s) as (_ & _ & Hm & Hc).
  destruct (IH (snd (copy_to_board e c s))) as [-> ->]. now split.
Qed.

(** X2: Starting within a maximum of at least one, the board after any
    sequence of insertions is the first [MAX_BOARD_SIZE] entries of the
    history obtained by putting each content in front unless it already is
    in front: the most recent entries, newest first. *)
Theorem inserts_keep_most_recent (calls : list (env * option str))
  (s : store) :
  1 <= MAX_BOARD_SIZE s ->
  len (_board s) <= MAX_BOARD_SIZE s ->
  _board (after_inserts calls s)
  = take (Z.to_nat (MAX_BOARD_SIZE s))
         (pushed (map (fun ec => default (clipboard s) (snd ec)) calls)
                 (_board s)).
Proof.
  intros Hm Hlen.
  assert (Hgen : forall calls s h,
             1 <= MAX_BOARD_SIZE s ->
             _board s = take (Z.to_nat (MAX_BOARD_SIZE s)) h ->
             _board (after_inserts calls s)
             = take (Z.to_nat (MAX_BOARD_SIZE s))
                    (pushed (map (fun ec => default (clipboard s) (snd ec))
                                 calls) h)).
  { clear. induction calls as [|[e c] rest IH]; intros s h Hm Hb.
    - exact Hb.
    - unfold after_inserts, pushed in *. simpl.
      destruct (copy_to_board_frame e c s) as (_ & Hb' & Hmax & Hclip).
      cbv zeta in Hb'.
      specialize (IH (snd (copy_to_board e c s))
                     (push (default (clipboard s) c) h)).
      rewrite Hmax, Hclip in IH. apply IH; [exact Hm|].
      rewrite Hb', Hb. now apply inserted_take. }
  apply Hgen; [exact Hm|].
  unfold len in Hlen. rewrite take_ge by lia. reflexivity.
Qed.

Lemma inserts_keep_most_recent_witness :
  _board (after_inserts
            [(Env (1 # 1) true, Some (py "a"));
             (Env (2 # 1) true, Some (py "a"));
             (Env (3 # 1) false, Some (py "b"));
             (Env (4 # 1) true, Some (py "c"))]
            (set_max 2 (initial [py "z"] [])))
  = [py "c"; py "b"].
Proof.
  apply (inserts_keep_most_recent
           [(Env (1 # 1) true, Some (py "a"));
            (Env (2 # 1) true, Some (py "a"));
            (Env (3 # 1) false, Some (py "b"));
            (Env (4 # 1) true, Some (py "c"))]
           (set_max 2 (initial [py "z"] []))).
  - vm_compute. discriminate.
  - vm_compute. discriminate.
Defined.

(** X3: [copy_to_board] never makes an entry follow itself: a board without
    two equal neighbours has none after the call either.  Equal entries
    further apart are kept: copying content that sits deeper in the board
    adds it a second time. *)
Theorem copy_to_board_no_adjacent_dup (e : env) (content : option str)
  (s : store) :
  (no_adjacent_dup (_board s) ->
   no_adjacent_dup (_board (snd (copy_to_board e content s))))
  /\ (forall c x rest,
        default (clipboard s) content = c ->
        _board s = x :: rest -> x <> c -> In c rest ->
        len (_board s) < MAX_BOARD_SIZE s ->
        _board (snd (copy_to_board e content s)) = c :: x :: rest).
Proof.
  destruct (copy_to_board_frame e content s) as (_ & Hb & _ & _).
  cbv zeta in Hb. rewrite Hb. split.
  - intros Hno. unfold inserted.
    destruct (head_is _ (_board s)) eqn:Hh; [exact Hno|].
    assert (Hcons : no_adjacent_dup (default (clipboard s) content
                                       :: _board s)).
    { revert Hh Hno. destruct (_board s) as [|x rest]; intros Hh Hno;
        [exact I|].
      split; [exact (head_is_false_cons _ _ _ Hh) | exact Hno]. }
    destruct (_ <? _); [|exact Hcons].
    rewrite pop_last_take. now apply no_adjacent_dup_take.
  - intros c x rest Hc Hbs Hx _ Hroom. rewrite Hc, Hbs in *.
    unfold inserted. simpl head_is.
    rewrite bool_decide_eq_false_2 by exact Hx.
    rewrite !len_cons in *.
    destruct (Z.ltb_spec (MAX_BOARD_SIZE s) (len rest + 1 + 1));
      [lia | reflexivity].
Qed.

Lemma copy_to_board_no_adjacent_dup_witness :
  no_adjacent_dup
    (_board (snd (copy_to_board (Env (1 # 1) true) (Some (py "a"))
                    (initial [py "b"; py "a"] []))))
  /\ _board (snd (copy_to_board (Env (1 # 1) true) (Some (py "a"))
                    (initial [py "b"; py "a"] [])))
     = [py "a"; py "b"; py "a"].
Proof.
  destruct (copy_to_board_no_adjacent_dup (Env (1 # 1) true)
              (Some (py "a")) (initial [py "b"; py "a"] []))
    as [Hno Hdeep].
  split.
  - apply Hno. simpl. split; [vm_compute; discriminate | exact I].
  - apply (Hdeep (py "a") (py "b") [py "a"]); try reflexivity.
    + vm_compute. discriminate.
    + now left.
Defined.

(** X4: When the board is full or over its maximum and the content is not
    already in front, [copy_to_board] keeps the length: the content goes in
    front and exactly the oldest entry is dropped, so a board longer than
    the maximum stays longer than it. *)
Theorem copy_to_board_evicts_oldest (e : env) (content : option str)
  (s : store) :
  1 <= MAX_BOARD_SIZE s ->
  MAX_BOARD_SIZE s <= len (_board s) ->
  head_is (default (clipboard s) content) (_board s) = false ->
  _board (snd (copy_to_board e content s))
  = default (clipboard s) content :: pop_last (_board s)
  /\ len (_board (snd (copy_to_board e content s))) = len (_board s).
Proof.
  intros Hm Hfull Hh.
  destruct (copy_to_board_frame e content s) as (_ & Hb & _ & _).
  cbv zeta in Hb. rewrite Hb. unfold inserted. rewrite Hh.
  destruct (_board s) as [|x rest] eqn:Hbs.
  { unfold len in Hfull. simpl in Hfull. lia. }
  rewrite !len_cons in *. pose proof (len_nonneg rest).
  destruct (Z.ltb_spec (MAX_BOARD_SIZE s) (len rest + 1 + 1)); [|lia].
  rewrite pop_last_cons. split; [reflexivity|].
  rewrite len_cons, len_pop_last by discriminate. rewrite len_cons. lia.
Qed.

Lemma copy_to_board_evicts_oldest_witness :
  _board (snd (copy_to_board (Env (1 # 1) true) (Some (py "n"))
                 (set_max 2 (initial [py "c"; py "b"; py "a"] []))))
  = [py "n"; py "c"; py "b"].
Proof.
  apply (copy_to_board_evicts_oldest (Env (1 # 1) true) (Some (py "n"))
           (set_max 2 (initial [py "c"; py "b"; py "a"] []))).
  - vm_compute. discriminate.
  - vm_compute. discriminate.
  - reflexivity.
Defined.

(** ** Invariants of every call *)

Lemma set_max_board_size_eq e size s :
  let m := Z.max 1 size in
  set_max_board_size e size s
  = if m <? len (_board s)
    then _save_board e true
           (_mark_modified
              (set_board (take (Z.to_nat m) (_board s)) (set_max m s)))
    else set_board (take (Z.to_nat m) (_board s)) (set_max m s).
Proof.
  intros m. unfold set_max_board_size. cbn [_board set_max].
  rewrite trim_loop_spec. fold m. simpl orb.
  now destruct (m <? len (_board s)).
Qed.

Lemma drop_item_cases e index s :
  drop_item e index s = (false, s)
  \/ exists b,
      drop_item e index s
      = (true, _save_board e false (_mark_modified (set_board b s)))
      /\ len b = len (_board s) - 1.
Proof.
  unfold drop_item.
  destruct (bool_decide_reflect (_board s = [])) as [|Hne]; [now left|].
  destruct index as [i|].
  - unfold in_range.
    destruct (Z.leb_spec 0 i), (Z.ltb_spec i (len (_board s))); simpl;
      try (now left).
    right. eexists. split; [reflexivity|].
    unfold len in *. rewrite length_delete by (apply lookup_lt_is_Some; lia).
    lia.
  - right. eexists. split; [reflexivity|]. now apply len_pop_last.
Qed.

Lemma reads_only_frame e c s :
  reads_only c = true ->
  _board (exec e c s) = _board s
  /\ MAX_BOARD_SIZE (exec e c s) = MAX_BOARD_SIZE s
  /\ _board_modified (exec e c s) = _board_modified s
  /\ _changes_since_save (exec e c s) = _changes_since_save s
  /\ _last_saved_time (exec e c s) = _last_saved_time s
  /\ (effects (exec e c s) = effects s
      \/ effects (exec e c s) = PasteRequested :: effects s).
Proof.
  destruct c as [| i a | a | idxs a | | | | | txt]; try discriminate;
    intros _; simpl.
  - unfold paste_from_board.
    destruct (_ || _ || _); [repeat split; now left|].
    destruct a; simpl; repeat split; auto.
  - unfold paste_all.
    destruct (bool_decide _); [repeat split; now left|].
    destruct a; simpl; repeat split; auto.
  - unfold paste_combination.
    destruct (bool_decide _); [repeat split; now left|].
    destruct (negb _); [repeat split; now left|].
    destruct a; simpl; repeat split; auto.
  - repeat split; auto.
Qed.

Lemma exec_board_max e c s :
  1 <= MAX_BOARD_SIZE s ->
  1 <= MAX_BOARD_SIZE (exec e c s)
  /\ (len (_board s) <= MAX_BOARD_SIZE s ->
      len (_board (exec e c s)) <= MAX_BOARD_SIZE (exec e c s)).
Proof.
  intros Hm.
  destruct (reads_only c) eqn:Hr.
  { destruct (reads_only_frame e c s Hr) as (-> & -> & _). now split. }
  destruct c as [content| | | | index | | size | |]; try discriminate;
    simpl.
  - destruct (copy_to_board_frame e content s) as (_ & -> & -> & _).
    split; [exact Hm | apply inserted_len].
  - destruct (drop_item_cases e index s) as [-> | (b & -> & Hb)];
      [now split|].
    destruct (mark_save_frame e false b s) as (Hb' & Hm' & _).
    cbn [snd]. cbv zeta in Hb', Hm'. rewrite Hb', Hm'. split; [exact Hm | lia].
  - unfold clear_board. cbn [snd].
    destruct (mark_save_frame e true [] s) as (Hb' & Hm' & _).
    cbv zeta in Hb', Hm'. rewrite Hb', Hm'. unfold len. simpl. split; lia.
  - rewrite set_max_board_size_eq. cbv zeta.
    assert (Hlen : len (take (Z.to_nat (Z.max 1 size)) (_board s))
                   <= Z.max 1 size).
    { unfold len. rewrite length_take. lia. }
    destruct (_ <? _).
    + destruct (mark_save_frame e true
                  (take (Z.to_nat (Z.max 1 size)) (_board s))
                  (set_max (Z.max 1 size) s)) as (Hb' & Hm' & _).
      cbv zeta in Hb', Hm'. rewrite Hb', Hm'. simpl. split; [lia|auto].
    + simpl. split; [lia|auto].
  - unfold force_save.
    destruct (save_board_frame e true s) as (-> & -> & _). now split.
Qed.

(** X5: every public operation of [core.py], not only insertion, keeps the
    board within the maximum and the maximum at least one: from a state
    where both hold, they hold after each call of any sequence of calls. *)
Theorem every_call_keeps_bound (calls : list (env * call)) (s : store) :
  bounded s -> Forall bounded (run calls s).
Proof.
  revert s. induction calls as [|[e c] rest IH]; intros s [Hm Hb]; simpl.
  - constructor.
  - destruct (exec_board_max e c s Hm) as [Hm' Hb'].
    assert (bounded (exec e c s)) by (split; auto).
    constructor; auto.
Qed.

Lemma every_call_keeps_bound_witness :
  Forall bounded
    (run [(Env (1 # 1) true, CopyToBoard (Some (py "a")));
          (Env (2 # 1) true, SetMaxBoardSize 0);
          (Env (3 # 1) false, CopyToBoard None);
          (Env (4 # 1) true, DropItem None);
          (Env (5 # 1) true, PasteAll true);
          (Env (6 # 1) true, ClearBoard)]
         (initial [py "z"; py "y"] (py "clip"))).
Proof.
  apply every_call_keeps_bound.
  split; vm_compute; discriminate.
Defined.

Lemma mark_matches s :
  0 <= _changes_since_save s -> flag_matches_counter (_mark_modified s).
Proof.
  intros H. unfold flag_matches_counter. simpl. split; [lia|].
  split; [lia | reflexivity].
Qed.

Lemma save_matches e force s :
  flag_matches_counter s -> flag_matches_counter (_save_board e force s).
Proof.
  intros H. destruct (save_board_cases e force s) as [-> | ->]; [exact H|].
  unfold write_file. destruct (disk_ok e); [|exact H].
  unfold flag_matches_counter. simpl. split; [lia|].
  split; [discriminate | lia].
Qed.

Lemma exec_matches e c s :
  flag_matches_counter s -> flag_matches_counter (exec e c s).
Proof.
  intros H.
  destruct (reads_only c) eqn:Hr.
  { destruct (reads_only_frame e c s Hr) as (_ & _ & Hf & Hc & _).
    unfold flag_matches_counter. now rewrite Hf, Hc. }
  assert (Hms : forall f s0,
             _changes_since_save s0 = _changes_since_save s ->
             flag_matches_counter (_save_board e f (_mark_modified s0))).
  { intros f s0 Hc. apply save_matches, mark_matches.
    rewrite Hc. apply H. }
  destruct c as [content| | | | index | | size | |]; try discriminate;
    simpl.
  - unfold copy_to_board. destruct (head_is _ _); [exact H|].
    cbn [snd]. now apply Hms.
  - destruct (drop_item_cases e index s) as [-> | (b & -> & _)];
      [exact H|].
    cbn [snd]. now apply Hms.
  - unfold clear_board. cbn [snd]. now apply Hms.
  - rewrite set_max_board_size_eq. cbv zeta.
    destruct (_ <? _); [now apply Hms | exact H].
  - now apply save_matches.
Qed.

(** X6: the dirty flag is up exactly when the change counter is positive,
    after every call of any sequence of public operations started in a
    state where this holds (as it does for the initial state). *)
Theorem flag_up_iff_changes_pending (calls : list (env * call))
  (s : store) :
  flag_matches_counter s -> Forall flag_matches_counter (run calls s).
Proof.
  revert s. induction calls as [|[e c] rest IH]; intros s H; simpl.
  - constructor.
  - pose proof (exec_matches e c s H). constructor; auto.
Qed.

Lemma flag_up_iff_changes_pending_witness :
  Forall flag_matches_counter
    (run [(Env (1 # 1) true, CopyToBoard (Some (py "a")));
          (Env (1 # 1) false, CopyToBoard (Some (py "b")));
          (Env (1 # 1) false, ClearBoard);
          (Env (1 # 1) true, ForceSave)]
         (initial [] [])).
Proof.
  apply flag_up_iff_changes_pending.
  unfold flag_matches_counter. simpl. split; [lia|].
  split; [discriminate | lia].
Defined.

Lemma mark_save_counter e force s :
  disk_ok e = true ->
  _changes_since_save s < SAVE_BATCH_SIZE ->
  _changes_since_save (_save_board e force (_mark_modified s))
  < SAVE_BATCH_SIZE.
Proof.
  intros Hok Hc. unfold _save_board, flush_due. cbn [_mark_modified
    _board_modified _changes_since_save]. simpl negb. cbn [andb].
  destruct (Z.leb_spec SAVE_BATCH_SIZE (_changes_since_save s + 1)).
  - rewrite orb_true_r. cbn [orb]. unfold write_file. rewrite Hok.
    reflexivity.
  - destruct (force || false || _); [|simpl; lia].
    unfold write_file. rewrite Hok. reflexivity.
Qed.

Lemma exec_counter e c s :
  disk_ok e = true ->
  _changes_since_save s < SAVE_BATCH_SIZE ->
  _changes_since_save (exec e c s) < SAVE_BATCH_SIZE.
Proof.
  intros Hok H.
  destruct (reads_only c) eqn:Hr.
  { destruct (reads_only_frame e c s Hr) as (_ & _ & _ & -> & _).
    exact H. }
  destruct c as [content| | | | index | | size | |]; try discriminate;
    simpl.
  - unfold copy_to_board. destruct (head_is _ _); [exact H|].
    cbn [snd]. now apply mark_save_counter.
  - destruct (drop_item_cases e index s) as [-> | (b & -> & _)];
      [exact H|].
    cbn [snd]. now apply mark_save_counter.
  - unfold clear_board. cbn [snd]. now apply mark_save_counter.
  - rewrite set_max_board_size_eq. cbv zeta.
    destruct (_ <? _); [now apply mark_save_counter | exact H].
  - unfold force_save. rewrite save_board_forced. unfold write_file.
    rewrite Hok. reflexivity.
Qed.

(** X7: as long as the board file can be written, fewer than
    [SAVE_BATCH_SIZE] changes are ever left unsaved: the bound holds after
    each call of any sequence of public operations started below it. *)
Theorem unsaved_changes_stay_below_batch (calls : list (env * call))
  (s : store) :
  Forall (fun ec => disk_ok (fst ec) = true) calls ->
  _changes_since_save s < SAVE_BATCH_SIZE ->
  Forall (fun s' => _changes_since_save s' < SAVE_BATCH_SIZE)
         (run calls s).
Proof.
  intros Hok. revert s.
  induction Hok as [|[e c] rest He _ IH]; intros s H; simpl.
  - constructor.
  - pose proof (exec_counter e c s He H). constructor; auto.
Qed.

Lemma unsaved_changes_stay_below_batch_witness :
  Forall (fun s' => _changes_since_save s' < SAVE_BATCH_SIZE)
    (run [(Env (1 # 10) true, CopyToBoard (Some (py "a")));
          (Env (2 # 10) true, CopyToBoard (Some (py "b")));
          (Env (3 # 10) true, CopyToBoard (Some (py "c")));
          (Env (4 # 10) true, DropItem (Some 0))]
         (saved_at (0 # 1) (initial [] []))).
Proof.
  apply unsaved_changes_stay_below_batch.
  - repeat constructor.
  - reflexivity.
Defined.

(** X8: the paste operations and [quick_copy_paste] only read the board:
    the board, the maximum, the dirty flag, the change counter and the time
    of the last save are what they were, and the only thing the trace can
    gain is one paste request, never a file write. *)
Theorem paste_calls_read_only (e : env) (c : call) (s : store) :
  reads_only c = true ->
  _board (exec e c s) = _board s
  /\ MAX_BOARD_SIZE (exec e c s) = MAX_BOARD_SIZE s
  /\ _board_modified (exec e c s) = _board_modified s
  /\ _changes_since_save (exec e c s) = _changes_since_save s
  /\ _last_saved_time (exec e c s) = _last_saved_time s
  /\ (effects (exec e c s) = effects s
      \/ effects (exec e c s) = PasteRequested :: effects s).
Proof.
  destruct c as [| i a | a | idxs a | | | | | txt]; try discriminate;
    intros _; simpl.
  - unfold paste_from_board.
    destruct (_ || _ || _); [repeat split; now left|].
    destruct a; simpl; repeat split; auto.
  - unfold paste_all.
    destruct (bool_decide _); [repeat split; now left|].
    destruct a; simpl; repeat split; auto.
  - unfold paste_combination.
    destruct (bool_decide _); [repeat split; now left|].
    destruct (negb _); [repeat split; now left|].
    destruct a; simpl; repeat split; auto.
  - repeat split; auto.
Qed.

Lemma paste_calls_read_only_witness :
  _board (exec (Env (1 # 1) true) (PasteCombination [1; 0] true)
            (_mark_modified (initial [py "a"; py "b"] [])))
  = [py "a"; py "b"].
Proof.
  apply (paste_calls_read_only (Env (1 # 1) true)
           (PasteCombination [1; 0] true)
           (_mark_modified (initial [py "a"; py "b"] []))).
  reflexivity.
Defined.

(** ** Saving when it is due, and again after a failure *)

Lemma unforced_save_due e s :
  _board_modified s = true ->
  (SAVE_BATCH_SIZE <= _changes_since_save s
   \/ (AUTO_SAVE_DELAY < Float.fsub (now e) (_last_saved_time s))%Q) ->
  _save_board e false s = write_file e s.
Proof.
  intros Hmod Hdue. unfold _save_board, flush_due. rewrite Hmod.
  cbn [negb andb orb].
  destruct Hdue as [Hcount | Htime].
  - destruct (Z.leb_spec SAVE_BATCH_SIZE (_changes_since_save s)); [|lia].
    reflexivity.
  - apply FloatProps.fsub_gt_2 in Htime.
    rewrite (proj2 (time_test_spec _ _) Htime). cbn [andb].
    now rewrite orb_true_r.
Qed.

Lemma unforced_save_not_due e s :
  _changes_since_save s < SAVE_BATCH_SIZE ->
  (Float.fsub (now e) (_last_saved_time s) <= AUTO_SAVE_DELAY)%Q ->
  _save_board e false s = s.
Proof.
  intros Hcount Htime. unfold _save_board, flush_due.
  destruct (negb (_board_modified s) && negb false); [reflexivity|].
  destruct (Z.leb_spec SAVE_BATCH_SIZE (_changes_since_save s)); [lia|].
  destruct (Qgtb _ AUTO_SAVE_DELAY) eqn:Hg; [|reflexivity].
  apply time_test_spec, FloatProps.fsub_gt_2 in Hg.
  unfold AUTO_SAVE_DELAY in *. lra.
Qed.

(** X9: an unforced save of a dirty board runs the write exactly when
    [SAVE_BATCH_SIZE] changes are pending or the difference of the time of
    the call and the time of the last save, computed on floats, is larger
    than [AUTO_SAVE_DELAY]; on floats that is the case exactly when the
    exact difference is more than 2 + 2^-52.  The write, when it succeeds,
    stores the current board and leaves nothing pending. *)
Theorem unforced_save_writes_when_due (e : env) (s : store) :
  (_board_modified s = true ->
   (SAVE_BATCH_SIZE <= _changes_since_save s
    \/ (AUTO_SAVE_DELAY < Float.fsub (now e) (_last_saved_time s))%Q) ->
   effects (_save_board e false s) = write_attempt e (_board s) :: effects s
   /\ (disk_ok e = true ->
       effects (_save_board e false s)
       = FileWritten (_board s) :: effects s
       /\ clean (_save_board e false s)
       /\ _last_saved_time (_save_board e false s) = now e))
  /\ (_changes_since_save s < SAVE_BATCH_SIZE ->
      (Float.fsub (now e) (_last_saved_time s) <= AUTO_SAVE_DELAY)%Q ->
      _save_board e false s = s)
  /\ ((AUTO_SAVE_DELAY < Float.fsub (now e) (_last_saved_time s))%Q
      <-> (2 + (1 # 4503599627370496) < now e - _last_saved_time s)%Q).
Proof.
  split; [|split].
  - intros Hmod Hdue. rewrite (unforced_save_due e s Hmod Hdue).
    split; [apply write_file_effects|].
    intros Hok. rewrite write_file_effects. unfold write_attempt.
    rewrite Hok. split; [reflexivity|]. now apply write_file_ok.
  - apply unforced_save_not_due.
  - apply FloatProps.fsub_gt_2.
Qed.

Lemma unforced_save_writes_when_due_witness :
  effects (_save_board (Env (10 # 1) true) false
             (_mark_modified (saved_at (7 # 1) (initial [py "a"] []))))
  = [FileWritten [py "a"]; FileWritten [py "a"]]
  /\ _save_board (Env (4 # 1) true) false
       (_mark_modified
          (saved_at (9007199254740991 # 4503599627370496)
             (initial [py "a"] [])))
     = _mark_modified
         (saved_at (9007199254740991 # 4503599627370496)
            (initial [py "a"] [])).
Proof.
  split.
  - apply (proj1 (unforced_save_writes_when_due (Env (10 # 1) true)
                    (_mark_modified
                       (saved_at (7 # 1) (initial [py "a"] []))))).
    + reflexivity.
    + right. vm_compute. reflexivity.
    + reflexivity.
  - apply (proj1 (proj2 (unforced_save_writes_when_due (Env (4 # 1) true)
                           (_mark_modified
                              (saved_at (9007199254740991 # 4503599627370496)
                                 (initial [py "a"] [])))))).
    + vm_compute. reflexivity.
    + vm_compute. discriminate.
Defined.

(** X10: when an unforced save has tried to write and failed, the state
    keeps its dirty flag, counter and last-save time, so the next unforced
    save (the clock not running backwards) tries again, and the first one
    that succeeds stores the board and leaves nothing pending. *)
Theorem failed_write_is_retried (e e' : env) (s : store) :
  effects (_save_board e false s) = FileWriteFailed :: effects s ->
  (now e <= now e')%Q ->
  let s1 := _save_board e false s in
  _board_modified s1 = true
  /\ _changes_since_save s1 = _changes_since_save s
  /\ _board s1 = _board s
  /\ effects (_save_board e' false s1)
     = write_attempt e' (_board s) :: FileWriteFailed :: effects s
  /\ (disk_ok e' = true -> clean (_save_board e' false s1)).
Proof.
  intros Heff Hclock s1.
  assert (Hs1 : s1 = emit FileWriteFailed s
                /\ _board_modified s = true
                /\ flush_due e false s = true).
  { subst s1. unfold _save_board in *.
    destruct (_board_modified s) eqn:Hmod; cbn [negb andb] in *.
    - destruct (flush_due e false s) eqn:Hdue.
      + unfold write_file in *. destruct (disk_ok e); [discriminate|].
        now repeat split.
      + symmetry in Heff. now apply cons_neq_self in Heff.
    - symmetry in Heff. now apply cons_neq_self in Heff. }
  destruct Hs1 as (Hs1 & Hmod & Hdue).
  assert (Hdue' : SAVE_BATCH_SIZE <= _changes_since_save s
                  \/ (AUTO_SAVE_DELAY
                      < Float.fsub (now e') (_last_saved_time s))%Q).
  { unfold flush_due in Hdue. cbn [orb] in Hdue.
    apply orb_true_iff in Hdue as [Hc | Ht].
    - left. now apply Z.leb_le.
    - right. apply andb_true_iff in Ht as [Ht _].
      apply time_test_spec in Ht. apply FloatProps.fsub_gt_2.
      unfold Float.half_ulp_above_2 in *. lra. }
  rewrite Hs1. cbn [emit _board_modified _changes_since_save _board].
  split; [exact Hmod|]. split; [reflexivity|]. split; [reflexivity|].
  assert (Hnext : _save_board e' false (emit FileWriteFailed s)
                  = write_file e' (emit FileWriteFailed s))
    by (apply unforced_save_due; assumption).
  rewrite Hnext. split; [apply write_file_effects|].
  intros Hok. now apply write_file_ok.
Qed.

Lemma failed_write_is_retried_witness :
  effects (_save_board (Env (11 # 1) true) false
             (_save_board (Env (10 # 1) false) false
                (_mark_modified (saved_at (7 # 1) (initial [py "a"] [])))))
  = [FileWritten [py "a"]; FileWriteFailed; FileWritten [py "a"]].
Proof.
  apply (failed_write_is_retried (Env (10 # 1) false) (Env (11 # 1) true)
           (_mark_modified (saved_at (7 # 1) (initial [py "a"] [])))).
  - reflexivity.
  - vm_compute. discriminate.
Defined.

(** ** Reading and removing entries *)

Lemma delete_last {A} (l : list A) :
  delete (length l - 1)%nat l = pop_last l.
Proof.
  rewrite delete_take_drop, pop_last_take.
  rewrite drop_ge by lia. apply app_nil_r.
Qed.

(** X11: [paste_from_board] succeeds on exactly the indices for which
    [get_board_item] returns an entry, the non-negative positions of the
    board; it then puts that entry on the clipboard and leaves the board
    alone, and otherwise changes nothing at all.  A negative index never
    counts from the end. *)
Theorem paste_from_board_reads_item (index : Z) (auto_paste : bool)
  (s : store) :
  (forall x, get_board_item index s = Some x
             <-> 0 <= index /\ _board s !! Z.to_nat index = Some x)
  /\ (forall x, get_board_item index s = Some x ->
        fst (paste_from_board index auto_paste s) = true
        /\ clipboard (snd (paste_from_board index auto_paste s)) = x
        /\ _board (snd (paste_from_board index auto_paste s)) = _board s)
  /\ (get_board_item index s = None ->
      paste_from_board index auto_paste s = (false, s)).
Proof.
  rewrite get_board_item_spec. unfold paste_from_board.
  pose proof (len_nonneg (_board s)) as Hl.
  destruct (Z.leb_spec 0 index) as [H0|H0],
           (Z.ltb_spec index (len (_board s))) as [Hlt|Hge]; simpl.
  - assert (Hv : valid_index (_board s) index) by (split; lia).
    rewrite (item_at_lookup _ _ Hv).
    destruct (bool_decide_reflect (_board s = [])) as [He|_].
    { rewrite He in Hlt. unfold len in Hlt. simpl in Hlt. lia. }
    destruct (Z.ltb_spec index 0); [lia|].
    destruct (Z.leb_spec (len (_board s)) index); [lia|]. simpl.
    split; [intros x; split; [now split | now intros [_ ?]]|].
    split; [|discriminate].
    intros x [= <-]. destruct auto_paste; repeat split.
  - split.
    + intros x. split; [discriminate|]. intros [_ Hx].
      apply lookup_lt_Some in Hx. unfold len in Hge. lia.
    + split; [discriminate|]. intros _.
      destruct (Z.leb_spec (len (_board s)) index); [|lia].
      now rewrite orb_true_r.
  - split; [intros x; split; [discriminate | lia]|].
    split; [discriminate|]. intros _.
    destruct (Z.ltb_spec index 0); [|lia].
    now rewrite orb_true_r.
  - split; [intros x; split; [discriminate | lia]|].
    split; [discriminate|]. intros _.
    destruct (Z.ltb_spec index 0); [|lia].
    now rewrite orb_true_r.
Qed.

Lemma paste_from_board_reads_item_witness :
  clipboard (snd (paste_from_board 1 true (initial [py "a"; py "b"] [])))
  = py "b"
  /\ paste_from_board (-1) true (initial [py "a"; py "b"] [])
     = (false, initial [py "a"; py "b"] []).
Proof.
  destruct (paste_from_board_reads_item 1 true (initial [py "a"; py "b"] []))
    as (_ & Hsome & _).
  destruct (paste_from_board_reads_item (-1) true
              (initial [py "a"; py "b"] [])) as (_ & _ & Hnone).
  split.
  - apply (Hsome (py "b")). reflexivity.
  - apply Hnone. reflexivity.
Defined.

(** X12: [drop_item] without an index removes the oldest entry: on an
    empty board it returns [False] and changes nothing, and otherwise it
    does exactly what [drop_item] does for the last index, leaving the
    board without its last entry. *)
Theorem drop_item_oldest (e : env) (s : store) :
  (_board s = [] -> drop_item e None s = (false, s))
  /\ (_board s <> [] ->
      drop_item e None s = drop_item e (Some (len (_board s) - 1)) s
      /\ fst (drop_item e None s) = true
      /\ _board (snd (drop_item e None s)) = pop_last (_board s)).
Proof.
  split.
  - intros He. unfold drop_item. now rewrite bool_decide_eq_true_2.
  - intros Hne. unfold drop_item.
    rewrite bool_decide_eq_false_2 by exact Hne.
    assert (Hpos : 0 < len (_board s)).
    { destruct (_board s) as [|x rest]; [congruence|]. rewrite len_cons.
      pose proof (len_nonneg rest). lia. }
    unfold in_range.
    destruct (Z.leb_spec 0 (len (_board s) - 1)); [|lia].
    destruct (Z.ltb_spec (len (_board s) - 1) (len (_board s))); [|lia].
    simpl.
    replace (Z.to_nat (len (_board s) - 1))
      with (length (_board s) - 1)%nat by (unfold len; lia).
    rewrite delete_last. split; [reflexivity|]. split; [reflexivity|].
    now destruct (mark_save_frame e false (pop_last (_board s)) s)
      as (-> & _).
Qed.

Lemma drop_item_oldest_witness :
  _board (snd (drop_item (Env (1 # 1) true) None
                 (initial [py "c"; py "b"; py "a"] [])))
  = [py "c"; py "b"]
  /\ drop_item (Env (1 # 1) true) None (initial [] [])
     = (false, initial [] []).
Proof.
  split.
  - apply (proj2 (drop_item_oldest (Env (1 # 1) true)
                    (initial [py "c"; py "b"; py "a"] []))).
    discriminate.
  - apply (proj1 (drop_item_oldest (Env (1 # 1) true) (initial [] []))).
    reflexivity.
Defined.

(** X13: [set_max_board_size] brings any state, also one whose board is
    longer than its maximum, within the new maximum, and asking for the
    same size again changes nothing more and writes nothing. *)
Theorem set_max_board_size_restores_bound (e e' : env) (size : Z)
  (s : store) :
  bounded (set_max_board_size e size s)
  /\ set_max_board_size e' size (set_max_board_size e size s)
     = set_max_board_size e size s.
Proof.
  set (m := Z.max 1 size).
  assert (Hb : _board (set_max_board_size e size s)
               = take (Z.to_nat m) (_board s)
               /\ MAX_BOARD_SIZE (set_max_board_size e size s) = m).
  { rewrite set_max_board_size_eq. cbv zeta. fold m.
    destruct (_ <? _); [|now split].
    destruct (mark_save_frame e true (take (Z.to_nat m) (_board s))
                (set_max m s)) as (Hb' & Hm' & _).
    cbv zeta in Hb', Hm'. now rewrite Hb', Hm'. }
  destruct Hb as [Hb Hm].
  assert (Hlen : len (_board (set_max_board_size e size s)) <= m).
  { rewrite Hb. unfold len. rewrite length_take. lia. }
  split.
  - unfold bounded. rewrite Hm. split; [lia | exact Hlen].
  - rewrite (set_max_board_size_eq e' size). cbv zeta. fold m.
    destruct (Z.ltb_spec m (len (_board (set_max_board_size e size s))));
      [lia|].
    unfold len in Hlen. rewrite take_ge by lia.
    rewrite <- Hm. now destruct (set_max_board_size e size s).
Qed.

(** ** Loading the board file *)

(** X14: after a load that found the file missing or readable, the board
    is cached: every later unforced load returns the same board and leaves
    the cache as it is, whatever the file holds by then. *)
Theorem load_is_cached (f1 f2 : board_file) (force : bool) (c : cache) :
  f1 <> Unreadable ->
  _board_loaded c = false \/ force = true ->
  let c1 := snd (_load_board f1 force c) in
  fst (_load_board f1 force c) = file_board f1
  /\ _board (mem c1) = file_board f1
  /\ _board_loaded c1 = true
  /\ _load_board f2 false c1 = (file_board f1, c1).
Proof.
  intros Hf Hload c1.
  assert (Hgo : negb (_board_loaded c) || force = true).
  { destruct Hload as [-> | ->]; [reflexivity | apply orb_true_r]. }
  assert (Heq : _load_board f1 force c
                = (file_board f1,
                   {| mem := set_board (file_board f1) (mem c);
                      _board_loaded := true |})).
  { unfold _load_board. rewrite Hgo.
    destruct f1 as [| |b]; [reflexivity | congruence | reflexivity]. }
  subst c1. rewrite Heq. cbn [fst snd]. repeat split.
Qed.

Lemma load_is_cached_witness :
  _load_board (Stored [py "other"]) false
    (snd (_load_board (Stored [py "a"; py "b"]) false (fresh [])))
  = ([py "a"; py "b"],
     snd (_load_board (Stored [py "a"; py "b"]) false (fresh []))).
Proof.
  apply (load_is_cached (Stored [py "a"; py "b"]) (Stored [py "other"])
           false (fresh [])).
  - discriminate.
  - now left.
Defined.

(** X15: a first load that cannot read the file leaves an empty board and
    does not mark the board as loaded, so the next unforced load goes to
    the file again and takes what it holds then. *)
Theorem unreadable_file_is_read_again (f : board_file) (c : cache) :
  _board_loaded c = false ->
  let c1 := snd (_load_board Unreadable false c) in
  fst (_load_board Unreadable false c) = []
  /\ _board (mem c1) = []
  /\ _board_loaded c1 = false
  /\ fst (_load_board f false c1) = file_board f
  /\ _board (mem (snd (_load_board f false c1))) = file_board f.
Proof.
  intros Hl c1.
  assert (Heq : _load_board Unreadable false c
                = ([], {| mem := set_board [] (mem c);
                          _board_loaded := false |})).
  { unfold _load_board. now rewrite Hl. }
  subst c1. rewrite Heq. cbn [fst snd mem _board_loaded].
  split; [reflexivity|]. split; [reflexivity|]. split; [reflexivity|].
  unfold _load_board. cbn [_board_loaded negb orb].
  destruct f; split; reflexivity.
Qed.

Lemma unreadable_file_is_read_again_witness :
  fst (_load_board (Stored [py "a"]) false
         (snd (_load_board Unreadable false (fresh []))))
  = [py "a"].
Proof.
  apply (unreadable_file_is_read_again (Stored [py "a"]) (fresh [])).
  reflexivity.
Defined.



(** ** Requests and responses *)

(** Case analysis along the branches of [handle_message]. *)
Ltac split_dispatch :=
  repeat match goal with
    | |- context [bool_decide (?a = JStr ?n)] =>
        destruct (bool_decide_reflect (a = JStr n))
    | |- context [truthy ?c] => destruct (truthy c)
    | |- context [copy_to_board ?e ?c ?s] => destruct (copy_to_board e c s)
    | |- context [clear_board ?e ?s] => destruct (clear_board e s)
    | |- context [paste_from_board ?i ?a ?s] =>
        destruct (paste_from_board i a s)
    | |- context [clipboard_error ?e] => destruct (clipboard_error e)
    | |- context [if ?b then _ else None] => destruct b
    | |- context [as_int ?v] => destruct (as_int v)
    | |- context [0 <=? ?i] => destruct (0 <=? i)
    | |- context [get_board_item ?i ?s] => destruct (get_board_item i s)
    | |- context [bool_decide (?c = [])] => destruct (bool_decide (c = []))
    | |- context [negb ?b] => simpl negb
    end;
  cbn [fst snd].

Lemma known_action_cases (message : gmap str jval) :
  unknown_action message ->
  action_of message <> JStr (py "add")
  /\ action_of message <> JStr (py "list")
  /\ action_of message <> JStr (py "paste")
  /\ action_of message <> JStr (py "paste_direct")
  /\ action_of message <> JStr (py "clear").
Proof.
  intros H. repeat split; apply H; unfold known_actions; simpl; auto 10.
Qed.


(** X17: every request, whatever it holds, gets a response with a boolean
    under [success]; a response with [success] true carries no [error];
    and a response with [success] false carries an [error] text unless the
    action is [paste_direct]. *)
Theorem every_response_has_success (e : env) (message : gmap str jval)
  (s : store) :
  (exists b, response e message s !! py "success" = Some (RBool b))
  /\ (response e message s !! py "success" = Some (RBool true) ->
      response e message s !! py "error" = None)
  /\ (response e message s !! py "success" = Some (RBool false) ->
      action_of message <> JStr (py "paste_direct") ->
      is_Some (response e message s !! py "error")).
Proof.
  unfold response, action_of, handle_message.
  split_dispatch.
  all: split; [eexists; reflexivity|].
  all: split; [reflexivity || (intros; discriminate)|].
  all: intros Hs Hna;
    first [ contradiction
          | eexists; reflexivity
          | exfalso; vm_compute in Hs; discriminate Hs ].
Qed.

Lemma every_response_has_success_witness :
  response (Env (1 # 1) true) {[ py "action" := JStr (py "list") ]}
    (initial [py "a"] []) !! py "error" = None
  /\ is_Some (response (Env (1 # 1) true) (∅ : gmap str jval)
                (initial [py "a"] []) !! py "error").
Proof.
  destruct (every_response_has_success (Env (1 # 1) true)
              {[ py "action" := JStr (py "list") ]} (initial [py "a"] []))
    as (_ & Htrue & _).
  destruct (every_response_has_success (Env (1 # 1) true)
              (∅ : gmap str jval) (initial [py "a"] []))
    as (_ & _ & Hfalse).
  split.
  - apply Htrue. reflexivity.
  - apply Hfalse; [reflexivity|]. vm_compute. discriminate.
Defined.

(** X18: a request whose action is none of add, list, paste, paste_direct
    and clear (a missing action counts as the empty one) is answered with
    [success] false and the text [Unknown action: ] followed by the action,
    and the state is untouched. *)
Theorem unknown_action_is_refused (e : env) (message : gmap str jval)
  (s : store) :
  unknown_action message ->
  handle_message e message s
  = (failure (py "Unknown action: " ++ str_of (action_of message)), s)
  /\ (message !! py "action" = None ->
      response e message s !! py "error"
      = Some (RStr (py "Unknown action: "))).
Proof.
  intros Hu.
  destruct (known_action_cases message Hu) as (H1 & H2 & H3 & H4 & H5).
  assert (Heq : handle_message e message s
                = (failure (py "Unknown action: "
                            ++ str_of (action_of message)), s)).
  { unfold handle_message. fold (action_of message).
    now rewrite !bool_decide_eq_false_2 by assumption. }
  split; [exact Heq|].
  intros Hnone. unfold response. rewrite Heq. cbn [fst].
  unfold action_of. rewrite Hnone. apply failure_lookup.
Qed.

Lemma unknown_action_is_refused_witness :
  handle_message (Env (1 # 1) true)
    {[ py "action" := JStr (py "ping") ]} (initial [py "a"] [])
  = (failure (py "Unknown action: ping"), initial [py "a"] []).
Proof.
  apply (proj1 (unknown_action_is_refused (Env (1 # 1) true)
                  {[ py "action" := JStr (py "ping") ]}
                  (initial [py "a"] [])
                  ltac:(intros name Hin; unfold known_actions in Hin;
                        simpl in Hin;
                        destruct Hin as [<-|[<-|[<-|[<-|[<-|[]]]]]];
                        vm_compute; discriminate))).
Defined.

(** X19: the actions list and paste, and every unknown action, never
    change the state, whatever else the request holds (a paste index of
    any type included). *)
Theorem queries_change_nothing (e : env) (message : gmap str jval)
  (s : store) :
  action_of message <> JStr (py "add") ->
  action_of message <> JStr (py "paste_direct") ->
  action_of message <> JStr (py "clear") ->
  state_after e message s = s.
Proof.
  intros Hadd Hdirect Hclear.
  unfold state_after, handle_message. fold (action_of message).
  rewrite (bool_decide_eq_false_2 _ Hadd),
          (bool_decide_eq_false_2 _ Hdirect),
          (bool_decide_eq_false_2 _ Hclear).
  split_dispatch; reflexivity.
Qed.

Lemma queries_change_nothing_witness :
  state_after (Env (1 # 1) true)
    {[ py "action" := JStr (py "paste"); py "index" := JStr (py "x") ]}
    (initial [py "a"] [])
  = initial [py "a"] [].
Proof.
  apply queries_change_nothing; vm_compute; discriminate.
Defined.

(** X20: a paste request with an integer index succeeds exactly when the
    index is a position of the board that holds a non-empty entry, and the
    response then carries that entry as its [content]. *)
Theorem paste_succeeds_iff (e : env) (message : gmap str jval)
  (s : store) (i : Z) :
  message !! py "action" = Some (JStr (py "paste")) ->
  message !! py "index" = Some (JInt i) ->
  (response e message s !! py "success" = Some (RBool true)
   <-> exists x, 0 <= i /\ _board s !! Z.to_nat i = Some x /\ x <> [])
  /\ (forall x, 0 <= i -> _board s !! Z.to_nat i = Some x -> x <> [] ->
        response e message s
        = {[ py "success" := RBool true; py "content" := RStr x ]}).
Proof.
  intros Ha Hi. unfold response.
  rewrite (handle_paste_int e message s i Ha Hi), get_board_item_spec.
  destruct (Z.leb_spec 0 i) as [H0|H0]; simpl.
  - destruct (Z.ltb_spec i (len (_board s))) as [Hlt|Hge].
    + destruct (_board s !! Z.to_nat i) as [x|] eqn:Hx.
      * destruct (bool_decide_reflect (x = [])) as [He|Hne]; cbn [fst].
        -- split.
           ++ split; [intros H; vm_compute in H; discriminate H|].
              intros (y & _ & [= <-] & Hy). contradiction.
           ++ intros y _ [= <-] Hy. contradiction.
        -- split.
           ++ split; [intros _; eauto | reflexivity].
           ++ now intros y _ [= <-] _.
      * cbn [fst]. split.
        -- split; [intros H; vm_compute in H; discriminate H|].
           intros (y & _ & Hy & _). discriminate Hy.
        -- intros y _ Hy. discriminate Hy.
    + cbn [fst].
      assert (Hnone : _board s !! Z.to_nat i = None).
      { apply lookup_ge_None. unfold len in Hge. lia. }
      rewrite Hnone. split.
      * split; [intros H; vm_compute in H; discriminate H|].
        intros (y & _ & Hy & _). discriminate Hy.
      * intros y _ Hy. discriminate Hy.
  - cbn [fst]. split.
    + split; [intros H; vm_compute in H; discriminate H|].
      intros (y & Hy & _). lia.
    + intros y Hy. lia.
Qed.

Lemma paste_succeeds_iff_witness :
  response (Env (1 # 1) true)
    {[ py "action" := JStr (py "paste"); py "index" := JInt 1 ]}
    (initial [py "a"; py "b"] [])
  = {[ py "success" := RBool true; py "content" := RStr (py "b") ]}.
Proof.
  destruct (paste_succeeds_iff (Env (1 # 1) true)
              {[ py "action" := JStr (py "paste"); py "index" := JInt 1 ]}
              (initial [py "a"; py "b"] []) 1) as [_ Hcontent].
  - vm_compute. reflexivity.
  - vm_compute. reflexivity.
  - apply (Hcontent (py "b")).
    + lia.
    + reflexivity.
    + discriminate.
Defined.

Lemma handle_add e message s :
  message !! py "action" = Some (JStr (py "add")) ->
  handle_message e message s
  = let content := default (JStr []) (message !! py "content") in
    if truthy content
    then match clipboard_error e with
         | Some text => (failure text, s)
         | None =>
             ({[ py "success" := RBool true ]},
              snd (copy_to_board e None
                     (set_clipboard (str_of content) s)))
         end
    else (failure (py "No content provided"), s).
Proof.
  intros Ha. unfold handle_message. rewrite Ha.
  cbn [default from_option id]. decide_actions. cbv zeta.
  destruct (truthy _); [|reflexivity].
  destruct (clipboard_error e); [reflexivity|].
  now destruct (copy_to_board _ _ _).
Qed.

Lemma handle_clear e message s :
  message !! py "action" = Some (JStr (py "clear")) ->
  handle_message e message s
  = ({[ py "success" := RBool true ]}, snd (clear_board e s)).
Proof.
  intros Ha. unfold handle_message. rewrite Ha.
  cbn [default from_option id]. decide_actions.
  now destruct (clear_board e s).
Qed.

Lemma handle_list e message s :
  message !! py "action" = Some (JStr (py "list")) ->
  handle_message e message s
  = ({[ py "success" := RBool true; py "items" := RItems (_board s) ]}, s).
Proof.
  intros Ha. unfold handle_message. rewrite Ha.
  cbn [default from_option id]. decide_actions. reflexivity.
Qed.

Lemma handle_paste_direct e message s :
  message !! py "action" = Some (JStr (py "paste_direct")) ->
  handle_message e message s
  = let index := default (JInt 0) (message !! py "index") in
    if bool_decide (_board s = []) then ({[ py "success" := RBool false ]}, s)
    else match as_int index with
         | inl ty => (failure (not_supported "<" ty), s)
         | inr i =>
             match (if fst (paste_from_board i true s)
                    then clipboard_error e else None) with
             | Some text => (failure text, s)
             | None =>
                 ({[ py "success"
                     := RBool (fst (paste_from_board i true s)) ]},
                  snd (paste_from_board i true s))
             end
         end.
Proof.
  intros Ha. unfold handle_message. rewrite Ha.
  cbn [default from_option id]. decide_actions. cbv zeta.
  destruct (bool_decide _); [reflexivity|].
  destruct (as_int _); [reflexivity|].
  now destruct (paste_from_board _ _ _).
Qed.

(** X21: an add request with a non-empty string as content, the maximum
    being at least one and the clipboard within reach, is answered with
    [success] true and puts the content on the clipboard and in front of
    the board, so that a paste request for index 0 returns it and a list
    request shows it first.  When the clipboard cannot be reached the
    request is answered with [success] false and the text of the exception,
    and nothing changes. *)
Theorem add_then_paste (e e' : env) (add paste list : gmap str jval)
  (s : store) (c : str) :
  add !! py "action" = Some (JStr (py "add")) ->
  add !! py "content" = Some (JStr c) ->
  c <> [] ->
  1 <= MAX_BOARD_SIZE s ->
  paste !! py "action" = Some (JStr (py "paste")) ->
  paste !! py "index" = Some (JInt 0) ->
  list !! py "action" = Some (JStr (py "list")) ->
  (clipboard_error e = None ->
   let s1 := state_after e add s in
   response e add s = {[ py "success" := RBool true ]}
   /\ clipboard s1 = c
   /\ response e' paste s1
      = {[ py "success" := RBool true; py "content" := RStr c ]}
   /\ exists rest,
       response e' list s1
       = {[ py "success" := RBool true; py "items" := RItems (c :: rest) ]})
  /\ (forall text,
        clipboard_error e = Some text ->
        handle_message e add s = (failure text, s)).
Proof.
  intros Ha Hc Hne Hm Hpa Hpi Hl.
  assert (Hadd : handle_message e add s
                 = match clipboard_error e with
                   | Some text => (failure text, s)
                   | None =>
                       ({[ py "success" := RBool true ]},
                        snd (copy_to_board e None (set_clipboard c s)))
                   end).
  { rewrite (handle_add e add s Ha), Hc. cbn [default from_option id].
    cbv zeta. cbn [truthy str_of].
    now rewrite bool_decide_eq_false_2 by exact Hne. }
  split; [|intros text Herr; now rewrite Hadd, Herr].
  intros Hclip s1. rewrite Hclip in Hadd.
  subst s1. unfold state_after, response. rewrite Hadd. cbn [fst snd].
  destruct (copy_to_board_frame e None (set_clipboard c s))
    as (_ & Hb & _ & Hcl).
  cbv zeta in Hb. cbn [default from_option id clipboard set_clipboard
    MAX_BOARD_SIZE _board] in Hb, Hcl.
  pose proof (inserted_head (MAX_BOARD_SIZE s) c (_board s) Hm) as Hh.
  rewrite <- Hb in Hh.
  set (s1 := snd (copy_to_board e None (set_clipboard c s))) in *.
  destruct (_board s1) as [|x rest] eqn:Hbs; [discriminate|].
  simpl in Hh. apply bool_decide_eq_true in Hh. subst x.
  split; [reflexivity|]. split; [exact Hcl|]. split.
  - rewrite (handle_paste_int e' paste s1 0 Hpa Hpi), get_board_item_spec.
    rewrite Hbs, len_cons. pose proof (len_nonneg rest).
    destruct (Z.ltb_spec 0 (len rest + 1)); [|lia]. simpl.
    now rewrite bool_decide_eq_false_2 by exact Hne.
  - exists rest. now rewrite (handle_list e' list s1 Hl), Hbs.
Qed.

Lemma add_then_paste_witness :
  response (Env (2 # 1) true)
    {[ py "action" := JStr (py "paste"); py "index" := JInt 0 ]}
    (state_after (Env (1 # 1) true)
       {[ py "action" := JStr (py "add"); py "content" := JStr (py "hi") ]}
       (initial [py "old"] []))
  = {[ py "success" := RBool true; py "content" := RStr (py "hi") ]}
  /\ handle_message (Surroundings (1 # 1) true (Some (py "no clipboard")))
       {[ py "action" := JStr (py "add"); py "content" := JStr (py "hi") ]}
       (initial [py "old"] [])
     = (failure (py "no clipboard"), initial [py "old"] []).
Proof.
  split.
  - destruct (add_then_paste (Env (1 # 1) true) (Env (2 # 1) true)
                {[ py "action" := JStr (py "add");
                   py "content" := JStr (py "hi") ]}
                {[ py "action" := JStr (py "paste"); py "index" := JInt 0 ]}
                {[ py "action" := JStr (py "list") ]}
                (initial [py "old"] []) (py "hi"))
      as [Hok _].
    + vm_compute. reflexivity.
    + vm_compute. reflexivity.
    + discriminate.
    + vm_compute. discriminate.
    + vm_compute. reflexivity.
    + vm_compute. reflexivity.
    + vm_compute. reflexivity.
    + destruct (Hok eq_refl) as (_ & _ & Hpaste & _). exact Hpaste.
  - destruct (add_then_paste
                (Surroundings (1 # 1) true (Some (py "no clipboard")))
                (Env (2 # 1) true)
                {[ py "action" := JStr (py "add");
                   py "content" := JStr (py "hi") ]}
                {[ py "action" := JStr (py "paste"); py "index" := JInt 0 ]}
                {[ py "action" := JStr (py "list") ]}
                (initial [py "old"] []) (py "hi"))
      as [_ Hfail].
    + vm_compute. reflexivity.
    + vm_compute. reflexivity.
    + discriminate.
    + vm_compute. discriminate.
    + vm_compute. reflexivity.
    + vm_compute. reflexivity.
    + vm_compute. reflexivity.
    + apply Hfail. reflexivity.
Defined.

(** X22: a clear request is answered with [success] true and leaves an
    empty board whether or not the board file could be written; when the
    write fails the response is the same and only the state records it:
    the dirty flag stays up and the trace holds the failed write. *)
Theorem clear_request_hides_write_failure (e : env)
  (message : gmap str jval) (s : store) :
  message !! py "action" = Some (JStr (py "clear")) ->
  response e message s = {[ py "success" := RBool true ]}
  /\ _board (state_after e message s) = []
  /\ (disk_ok e = false ->
      _board_modified (state_after e message s) = true
      /\ effects (state_after e message s) = FileWriteFailed :: effects s).
Proof.
  intros Ha. unfold response, state_after.
  rewrite (handle_clear e message s Ha). cbn [fst snd].
  unfold clear_board. cbn [snd]. rewrite save_board_forced.
  set (s1 := _mark_modified (set_board [] s)).
  destruct (write_file_frame e s1) as (Hb & _).
  split; [reflexivity|]. split; [now rewrite Hb|].
  intros Hfail.
  destruct (write_file_failed e s1 Hfail) as (Hmod & _).
  rewrite Hmod, write_file_effects. unfold write_attempt.
  now rewrite Hfail.
Qed.

Lemma clear_request_hides_write_failure_witness :
  response (Env (1 # 1) false) {[ py "action" := JStr (py "clear") ]}
    (initial [py "a"] [])
  = {[ py "success" := RBool true ]}
  /\ _board_modified
       (state_after (Env (1 # 1) false)
          {[ py "action" := JStr (py "clear") ]} (initial [py "a"] []))
     = true.
Proof.
  destruct (clear_request_hides_write_failure (Env (1 # 1) false)
              {[ py "action" := JStr (py "clear") ]} (initial [py "a"] []))
    as (Hresp & _ & Hfail).
  - vm_compute. reflexivity.
  - split; [exact Hresp|]. apply Hfail. reflexivity.
Defined.

(** X23: a paste_direct request with an integer index (0 when the request
    has none) whose index is not a position of the board answers [success]
    false without an [error] and changes nothing; on an empty board this
    holds for an index of any type.  For a position of the board, with the
    clipboard within reach, it answers [success] true, puts that entry on
    the clipboard, asks for the paste keystroke and leaves the board alone;
    when the clipboard cannot be reached it answers [success] false with
    the text of the exception and changes nothing. *)
Theorem paste_direct_request (e : env) (message : gmap str jval)
  (s : store) :
  message !! py "action" = Some (JStr (py "paste_direct")) ->
  (_board s = [] ->
   handle_message e message s = ({[ py "success" := RBool false ]}, s))
  /\ (forall i,
        default (JInt 0) (message !! py "index") = JInt i ->
        (~ valid_index (_board s) i ->
         handle_message e message s
         = ({[ py "success" := RBool false ]}, s))
        /\ (forall x,
              0 <= i -> _board s !! Z.to_nat i = Some x ->
              (clipboard_error e = None ->
               response e message s = {[ py "success" := RBool true ]}
               /\ clipboard (state_after e message s) = x
               /\ _board (state_after e message s) = _board s
               /\ effects (state_after e message s)
                  = PasteRequested :: effects s)
              /\ (forall text,
                    clipboard_error e = Some text ->
                    handle_message e message s = (failure text, s)))).
Proof.
  intros Ha. unfold response, state_after.
  rewrite (handle_paste_direct e message s Ha). cbv zeta.
  split.
  - intros He. now rewrite bool_decide_eq_true_2.
  - intros i Hi. rewrite Hi. cbn [as_int]. unfold paste_from_board.
    pose proof (len_nonneg (_board s)) as Hl.
    destruct (bool_decide_reflect (_board s = [])) as [He|Hne].
    + split; [reflexivity|].
      intros x _ Hx. rewrite He in Hx. discriminate Hx.
    + cbn [orb]. split.
      * intros Hbad. unfold valid_index in Hbad.
        destruct (Z.ltb_spec i 0), (Z.leb_spec (len (_board s)) i);
          simpl; try reflexivity; lia.
      * intros x H0 Hx.
        assert (Hlt : (Z.to_nat i < length (_board s))%nat)
          by (apply lookup_lt_is_Some; eauto).
        destruct (Z.ltb_spec i 0); [lia|].
        destruct (Z.leb_spec (len (_board s)) i);
          [unfold len in *; lia|].
        cbn [orb fst snd]. unfold item_at.
        rewrite (list_lookup_total_correct _ _ _ Hx). split.
        -- intros Hclip. rewrite Hclip. repeat split.
        -- intros text Herr. now rewrite Herr.
Qed.

Lemma paste_direct_request_witness :
  clipboard (state_after (Env (1 # 1) true)
               {[ py "action" := JStr (py "paste_direct") ]}
               (initial [py "a"; py "b"] []))
  = py "a"
  /\ handle_message (Env (1 # 1) true)
       {[ py "action" := JStr (py "paste_direct");
          py "index" := JStr (py "x") ]}
       (initial [] [])
     = ({[ py "success" := RBool false ]}, initial [] [])
  /\ handle_message (Surroundings (1 # 1) true (Some (py "no clipboard")))
       {[ py "action" := JStr (py "paste_direct") ]}
       (initial [py "a"; py "b"] [])
     = (failure (py "no clipboard"), initial [py "a"; py "b"] []).
Proof.
  split; [|split].
  - destruct (paste_direct_request (Env (1 # 1) true)
                {[ py "action" := JStr (py "paste_direct") ]}
                (initial [py "a"; py "b"] [])) as [_ Hint].
    + vm_compute. reflexivity.
    + destruct (Hint 0) as [_ Hok]; [vm_compute; reflexivity|].
      destruct (Hok (py "a")) as [Hgood _]; [lia | reflexivity |].
      apply Hgood. reflexivity.
  - apply paste_direct_request; [vm_compute|]; reflexivity.
  - destruct (paste_direct_request
                (Surroundings (1 # 1) true (Some (py "no clipboard")))
                {[ py "action" := JStr (py "paste_direct") ]}
                (initial [py "a"; py "b"] [])) as [_ Hint].
    + vm_compute. reflexivity.
    + destruct (Hint 0) as [_ Hok]; [vm_compute; reflexivity|].
      destruct (Hok (py "a")) as [_ Hbad]; [lia | reflexivity |].
      apply Hbad. reflexivity.
Defined.

(** X24: a paste request whose index is a string or [null] is answered
    with [success] false and the text of the comparison error, which names
    the type; a boolean index is read as the integer 1 or 0. *)
Theorem paste_index_of_other_type (e : env) (message : gmap str jval)
  (s : store) :
  message !! py "action" = Some (JStr (py "paste")) ->
  (forall t, message !! py "index" = Some (JStr t) ->
     handle_message e message s
     = (failure (py "'>=' not supported between instances of 'str' and 'int'"),
        s))
  /\ (message !! py "index" = Some JNull ->
      handle_message e message s
      = (failure
           (py "'>=' not supported between instances of 'NoneType' and 'int'"),
         s))
  /\ (forall b, message !! py "index" = Some (JBool b) ->
        handle_message e message s
        = handle_message e
            (<[ py "index" := JInt (if b then 1 else 0) ]> message) s).
Proof.
  intros Ha. repeat apply conj.
  - intros t Hi. unfold handle_message. rewrite Ha, Hi.
    cbn [default from_option id]. decide_actions. reflexivity.
  - intros Hi. unfold handle_message. rewrite Ha, Hi.
    cbn [default from_option id]. decide_actions. reflexivity.
  - intros b Hi. unfold handle_message.
    rewrite lookup_insert_ne by (vm_compute; discriminate).
    rewrite lookup_insert_eq, Ha, Hi.
    cbn [default from_option id]. decide_actions. reflexivity.
Qed.

Lemma paste_index_of_other_type_witness :
  handle_message (Env (1 # 1) true)
    {[ py "action" := JStr (py "paste"); py "index" := JBool true ]}
    (initial [py "a"; py "b"] [])
  = ({[ py "success" := RBool true; py "content" := RStr (py "b") ]},
     initial [py "a"; py "b"] []).
Proof.
  destruct (paste_index_of_other_type (Env (1 # 1) true)
              {[ py "action" := JStr (py "paste"); py "index" := JBool true ]}
              (initial [py "a"; py "b"] [])) as (_ & _ & Hbool).
  - vm_compute. reflexivity.
  - rewrite (Hbool true); [|vm_compute; reflexivity].
    vm_compute. reflexivity.
Defined.

(** ** Frames on the wire *)

Import Wire.

Lemma byte_val_of (z : Z) : 0 <= z < 256 -> byte_val (byte_of z) = z.
Proof.
  intros Hz. unfold byte_val, byte_of. rewrite Z.mod_small by lia.
  destruct (Byte.of_N (Z.to_N z)) as [b|] eqn:Hb.
  - apply Byte.to_of_N in Hb. simpl. rewrite Hb. lia.
  - apply Byte.of_N_None_iff in Hb. lia.
Qed.

Lemma byte_val_of_mod (z : Z) : byte_val (byte_of z) = z mod 256.
Proof.
  assert (Heq : byte_of z = byte_of (z mod 256))
    by (unfold byte_of; now rewrite Zmod_mod).
  rewrite Heq. apply byte_val_of. apply Z.mod_pos_bound. lia.
Qed.

Lemma byte_val_range (b : byte) : 0 <= byte_val b < 256.
Proof.
  unfold byte_val. pose proof (Byte.to_N_bounded b). lia.
Qed.

Lemma pack_I_some order n :
  0 <= n <= 4294967295 ->
  exists header,
    pack_I order n = Some header
    /\ length header = 4%nat
    /\ unpack_I order header = Some n.
Proof.
  intros Hn. unfold pack_I.
  destruct (Z.leb_spec 0 n); [|lia].
  destruct (Z.leb_spec n 4294967295); [|lia]. simpl.
  eexists. split; [reflexivity|]. split; [now destruct order|].
  assert (Hsum : n mod 256 + 256 * ((n / 256) mod 256)
                 + 65536 * ((n / 65536) mod 256)
                 + 16777216 * ((n / 16777216) mod 256) = n).
  { Z.div_mod_to_equations. lia. }
  destruct order; simpl; rewrite !byte_val_of_mod; f_equal; lia.
Qed.

(** X25: [pack] and [unpack] with the same byte order are inverse on the
    numbers from 0 to 4294967295, the header always being four bytes;
    [pack] fails for any other number and [unpack] for any buffer that is
    not four bytes long; and the headers of the two byte orders are each
    other's reverse. *)
Theorem length_header_round_trip (order : byteorder) :
  (forall n, 0 <= n <= 4294967295 ->
     exists header,
       pack_I order n = Some header
       /\ length header = 4%nat
       /\ unpack_I order header = Some n)
  /\ (forall n, ~ 0 <= n <= 4294967295 -> pack_I order n = None)
  /\ (forall data, length data <> 4%nat -> unpack_I order data = None)
  /\ (forall n, pack_I BigEndian n
                = (fun header => rev header) <$> pack_I LittleEndian n).
Proof.
  repeat apply conj.
  - intros n Hn. now apply pack_I_some.
  - intros n Hn. unfold pack_I.
    destruct (Z.leb_spec 0 n), (Z.leb_spec n 4294967295);
      simpl; try reflexivity; lia.
  - intros data Hd.
    destruct data as [|a [|b [|c [|d [|x rest]]]]]; simpl in *;
      try reflexivity; lia.
  - intros n. unfold pack_I. now destruct (_ && _).
Qed.

Lemma length_header_round_trip_witness :
  exists header,
    pack_I LittleEndian 258 = Some header
    /\ length header = 4%nat
    /\ unpack_I LittleEndian header = Some 258.
Proof.
  apply (proj1 (length_header_round_trip LittleEndian) 258). lia.
Defined.

Lemma get_message_frame q header payload rest :
  length header = 4%nat ->
  unpack_I (native q) header = Some (len payload) ->
  get_message q (header ++ payload ++ rest)
  = Message (as_received (loads q payload)) rest.
Proof.
  intros Hlen Hun. unfold get_message.
  rewrite take_app_length' by (symmetry; exact Hlen).
  rewrite drop_app_length' by (symmetry; exact Hlen).
  destruct header as [|h0 header]; [discriminate|].
  rewrite Hun. unfold len. rewrite Nat2Z.id.
  rewrite take_app_length, drop_app_length.
  now destruct (loads q payload).
Qed.

(** X26: what [send_message] writes for a payload of at most 4294967295
    bytes is the four-byte length followed by the payload, and
    [get_message] on a machine of the same byte order reads from it
    exactly that payload, hands it to the decoder and leaves the bytes
    after it unread. *)
Theorem frame_round_trip (p q : platform) (message : gmap str rval)
  (stdout rest : list byte) :
  native p = native q ->
  len (dumps p message) <= 4294967295 ->
  exists header,
    send_message p message stdout = stdout ++ header ++ dumps p message
    /\ length header = 4%nat
    /\ unpack_I (native p) header = Some (len (dumps p message))
    /\ get_message q (send_message p message [] ++ rest)
       = Message (as_received (loads q (dumps p message))) rest.
Proof.
  intros Horder Hfit.
  destruct (pack_I_some (native p) (len (dumps p message)))
    as (header & Hpack & Hlen & Hun).
  { split; [apply len_nonneg | exact Hfit]. }
  exists header. unfold send_message. rewrite Hpack.
  split; [reflexivity|]. split; [exact Hlen|]. split; [exact Hun|].
  rewrite app_nil_l, <- app_assoc.
  apply get_message_frame; [exact Hlen|]. now rewrite <- Horder.
Qed.

Lemma frame_round_trip_witness :
  get_message
    (Platform LittleEndian (fun _ => JsonObject ∅)
       (fun _ => [Byte.x7b; Byte.x7d]) [])
    (send_message
       (Platform LittleEndian (fun _ => JsonError)
          (fun _ => [Byte.x7b; Byte.x7d]) [])
       (failure []) [] ++ [Byte.x00])
  = Message (Dict ∅) [Byte.x00].
Proof.
  destruct (frame_round_trip
              (Platform LittleEndian (fun _ => JsonError)
                 (fun _ => [Byte.x7b; Byte.x7d]) [])
              (Platform LittleEndian (fun _ => JsonObject ∅)
                 (fun _ => [Byte.x7b; Byte.x7d]) [])
              (failure []) [] [Byte.x00])
    as (header & _ & _ & _ & Hget).
  - reflexivity.
  - vm_compute. discriminate.
  - exact Hget.
Defined.

(** ** One run of the host *)

Lemma handle_empty_request e s :
  handle_message e ∅ s = (failure (py "Unknown action: "), s).
Proof.
  unfold handle_message. rewrite lookup_empty.
  cbn [default from_option id]. decide_actions. reflexivity.
Qed.


Lemma failed_saves_none s : failed_saves s s = 0%nat.
Proof. unfold failed_saves. now rewrite Nat.sub_diag. Qed.







(** X28: input that is not a request leaves the state alone and is still
    answered: one to three bytes instead of a header, or a payload the
    decoder rejects, count as the empty request and get the response for
    the unknown action with the empty name; a payload that decodes to
    something other than an object gets the text of the attribute error
    naming its type. *)
Theorem malformed_input_is_answered (p : platform) (e : env)
  (s : store) :
  (forall stdin,
      (0 < length stdin < 4)%nat ->
      main p e stdin s
      = (send_message p (failure (py "Unknown action: ")) [], s))
  /\ (forall header payload rest,
        length header = 4%nat ->
        unpack_I (native p) header = Some (len payload) ->
        (loads p payload = JsonError ->
         main p e (header ++ payload ++ rest) s
         = (send_message p (failure (py "Unknown action: ")) [], s))
        /\ (forall type_name,
              loads p payload = JsonOther type_name ->
              main p e (header ++ payload ++ rest) s
              = (send_message p
                   (failure (py "'" ++ type_name
                             ++ py "' object has no attribute 'get'")) [],
                 s))).
Proof.
  split.
  - intros stdin Hlen. unfold main.
    assert (Hget : get_message p stdin = Message (Dict ∅) []).
    { unfold get_message.
      destruct stdin as [|b0 [|b1 [|b2 [|b3 rest]]]]; simpl in Hlen;
        try lia; reflexivity. }
    rewrite Hget, handle_empty_request.
    unfold printed_by_core. rewrite failed_saves_none.
    simpl concat. now rewrite app_nil_r.
  - intros header payload rest Hlen Hun. unfold main.
    rewrite (get_message_frame p header payload rest Hlen Hun). split.
    + intros ->. cbn [as_received]. rewrite handle_empty_request.
      unfold printed_by_core. rewrite failed_saves_none.
      simpl concat. now rewrite app_nil_r.
    + intros type_name ->. reflexivity.
Qed.

Lemma malformed_input_is_answered_witness :
  main (Platform LittleEndian (fun _ => JsonError)
          (fun _ => [Byte.x7b; Byte.x7d]) [])
       (Env (1 # 1) true) [Byte.x01; Byte.x00] (initial [py "a"] [])
  = ([Byte.x02; Byte.x00; Byte.x00; Byte.x00; Byte.x7b; Byte.x7d],
     initial [py "a"] []).
Proof.
  apply (proj1 (malformed_input_is_answered
                  (Platform LittleEndian (fun _ => JsonError)
                     (fun _ => [Byte.x7b; Byte.x7d]) [])
                  (Env (1 # 1) true) (initial [py "a"] []))
           [Byte.x01; Byte.x00]).
  simpl. lia.
Defined.

(** ** The command line *)

Import Cli.

Lemma list_rows_valid preview_max s indices :
  Forall (valid_index (_board s)) indices ->
  list_rows (get_board_preview preview_max s) indices
  = Some (flat_map
            (fun idx => [sheet_line idx
                           (preview_of preview_max (item_at (_board s) idx));
                         dashes])
            indices).
Proof.
  induction 1 as [|idx rest Hidx _ IH]; [reflexivity|].
  cbn [list_rows flat_map]. rewrite get_board_preview_lookup.
  pose proof Hidx as [H0 Hlt].
  destruct (Z.leb_spec 0 idx); [|lia].
  destruct (Z.ltb_spec idx (len (_board s))); [|lia].
  simpl. rewrite (item_at_lookup _ _ Hidx). simpl. now rewrite IH.
Qed.

Lemma rows_lookup (f : Z -> str) (d : str) (indices : list Z) :
  forall (i : nat) (idx : Z),
    indices !! i = Some idx ->
    flat_map (fun j => [f j; d]) indices !! (2 * i)%nat = Some (f idx)
    /\ flat_map (fun j => [f j; d]) indices !! (2 * i + 1)%nat = Some d.
Proof.
  induction indices as [|j rest IH]; intros i idx Hi; [discriminate|].
  destruct i as [|i].
  - injection Hi as ->. now split.
  - specialize (IH i idx Hi).
    replace (2 * S i)%nat with (S (S (2 * i))) by lia.
    replace (S (S (2 * i)) + 1)%nat with (S (S (2 * i + 1))) by lia.
    exact IH.
Qed.

Lemma rows_length (f : Z -> str) (d : str) (indices : list Z) :
  length (flat_map (fun j => [f j; d]) indices) = (2 * length indices)%nat.
Proof.
  induction indices as [|j rest IH]; [reflexivity|].
  cbn [flat_map]. simpl length. rewrite IH. lia.
Qed.

(** X29: [handle_list] never fails on a missing preview key: it always
    returns 0 and leaves the state alone; for an empty board it prints the
    one line saying so, and for a board of n entries a title and a rule
    followed by n pairs of lines, the pair for entry i being its numbered
    preview of at most 30 characters and a rule. *)
Theorem handle_list_prints_every_entry (s : store) :
  exists lines,
    handle_list s = Some (Outcome 0 lines s)
    /\ (_board s = [] -> lines = [py "Clipboard board is empty."])
    /\ (_board s <> [] ->
        exists title rows,
          lines = title :: dashes :: rows
          /\ length rows = (2 * length (_board s))%nat
          /\ forall (i : nat) item,
              _board s !! i = Some item ->
              rows !! (2 * i)%nat
              = Some (sheet_line (Z.of_nat i) (preview_of 30 item))
              /\ rows !! (2 * i + 1)%nat = Some dashes).
Proof.
  unfold handle_list, get_board_size.
  destruct (Z.eqb_spec (len (_board s)) 0) as [Hz|Hnz].
  - eexists. split; [reflexivity|]. split; [reflexivity|].
    intros Hne. destruct (_board s) as [|x rest]; [congruence|].
    rewrite len_cons in Hz. pose proof (len_nonneg rest). lia.
  - rewrite list_rows_valid.
    2:{ apply Forall_seqZ. intros i Hi. unfold valid_index. lia. }
    eexists. split; [reflexivity|]. split.
    { intros He. rewrite He in Hnz. now unfold len in Hnz. }
    intros _. eexists _, _. split; [reflexivity|]. split.
    + rewrite rows_length, length_seqZ. unfold len. lia.
    + intros i item Hi.
      assert (Hlt : (i < length (_board s))%nat)
        by (apply lookup_lt_is_Some; eauto).
      assert (Hseq : seqZ 0 (len (_board s)) !! i = Some (Z.of_nat i)).
      { rewrite lookup_seqZ_lt by (unfold len; lia). reflexivity. }
      destruct (rows_lookup
                  (fun idx => sheet_line idx
                                (preview_of 30 (item_at (_board s) idx)))
                  dashes _ i _ Hseq) as [Hrow Hrule].
      split; [|exact Hrule].
      rewrite Hrow. unfold item_at. rewrite Nat2Z.id.
      now rewrite (list_lookup_total_correct _ _ _ Hi).
Qed.

Lemma handle_list_prints_every_entry_witness :
  exists lines,
    handle_list (initial [py "a"; py "b"] [])
    = Some (Outcome 0 lines (initial [py "a"; py "b"] []))
    /\ lines !! 4%nat = Some (py "1: b").
Proof.
  destruct (handle_list_prints_every_entry (initial [py "a"; py "b"] []))
    as (lines & Heq & _ & Hrows).
  destruct Hrows as (title & rows & -> & _ & Hrow); [discriminate|].
  exists (title :: dashes :: rows). split; [exact Heq|].
  exact (proj1 (Hrow 1%nat (py "b") eq_refl)).
Defined.

Lemma find_out_of_board s indices :
  find (out_of_board s) indices = None
  <-> Forall (valid_index (_board s)) indices.
Proof.
  unfold out_of_board, get_board_size, valid_index.
  induction indices as [|idx rest IH]; simpl.
  - split; [constructor | reflexivity].
  - destruct (Z.ltb_spec idx 0) as [Hneg|Hnn],
             (Z.leb_spec (len (_board s)) idx) as [Hbig|Hlt]; simpl.
    + split; [discriminate | intros Hall; inversion Hall; lia].
    + split; [discriminate | intros Hall; inversion Hall; lia].
    + split; [discriminate | intros Hall; inversion Hall; lia].
    + rewrite IH. split.
      * intros Hall. constructor; [lia | exact Hall].
      * intros Hall. now inversion Hall.
Qed.

(** X30: [handle_paste_combo] returns 0 exactly when the index list is
    not empty, every index is a position of the board and the clipboard
    is within reach; it then leaves on the clipboard the referenced
    entries in the order given and asks for the paste keystroke.  In every
    other case it returns 1 and changes nothing; when the indices pass and
    the clipboard is out of reach, it prints the text of the exception
    after [Error: ].  Once the handler's own checks have passed,
    [paste_combination] returns [True], so that the branch of the line
    about a failed combination is never taken. *)
Theorem handle_paste_combo_codes (e : env) (indices : list Z) (s : store) :
  (code (handle_paste_combo e indices s) = 0
   <-> indices <> [] /\ Forall (valid_index (_board s)) indices
       /\ clipboard_error e = None)
  /\ (code (handle_paste_combo e indices s) = 0 ->
      clipboard (final (handle_paste_combo e indices s))
      = concat (map (item_at (_board s)) indices)
      /\ effects (final (handle_paste_combo e indices s))
         = PasteRequested :: effects s)
  /\ (code (handle_paste_combo e indices s) <> 0 ->
      code (handle_paste_combo e indices s) = 1
      /\ final (handle_paste_combo e indices s) = s)
  /\ (forall text,
        indices <> [] -> Forall (valid_index (_board s)) indices ->
        clipboard_error e = Some text ->
        printed (handle_paste_combo e indices s) = [py "Error: " ++ text])
  /\ (indices <> [] -> find (out_of_board s) indices = None ->
      fst (paste_combination indices true s) = true).
Proof.
  destruct indices as [|idx rest].
  { cbn [handle_paste_combo code final printed].
    split; [|split; [|split; [|split]]].
    - split; [discriminate | intros [Hn _]; congruence].
    - discriminate.
    - now split.
    - intros text Hn. congruence.
    - intros Hn. congruence. }
  unfold handle_paste_combo.
  destruct (find (out_of_board s) (idx :: rest)) as [bad|] eqn:Hfind.
  - assert (Hnot : ~ Forall (valid_index (_board s)) (idx :: rest)).
    { intros Hall. apply find_out_of_board in Hall. congruence. }
    cbn [code final printed]. split; [|split; [|split; [|split]]].
    + split; [discriminate | intros (_ & Hall & _); contradiction].
    + discriminate.
    + now split.
    + intros text _ Hall. contradiction.
    + discriminate.
  - apply find_out_of_board in Hfind.
    assert (Hne : _board s <> []).
    { inversion Hfind as [|? ? [H0 Hlt] _]. subst.
      intros He. rewrite He in Hlt. unfold len in Hlt. simpl in Hlt. lia. }
    unfold paste_combination.
    rewrite (bool_decide_eq_false_2 _ Hne).
    rewrite (proj2 (all_valid_spec _ _) Hfind).
    cbn [negb request_paste fst].
    destruct (clipboard_error e) as [wrong|];
      cbn [code final printed clipboard effects emit set_clipboard].
    + split; [|split; [|split; [|split]]].
      * split; [discriminate | intros (_ & _ & Hc); discriminate].
      * discriminate.
      * now split.
      * intros text _ _ [= ->]. reflexivity.
      * reflexivity.
    + split; [|split; [|split; [|split]]].
      * split; [intros _; split; [discriminate | now split] | reflexivity].
      * intros _. now rewrite join_empty_sep.
      * intros Hc. congruence.
      * intros text _ _ Hc. discriminate.
      * reflexivity.
Qed.

Lemma handle_paste_combo_codes_witness :
  clipboard (final (handle_paste_combo (Env (1 # 1) true) [2; 0]
                      (initial [py "c"; py "b"; py "a"] [])))
  = py "ac"
  /\ final (handle_paste_combo (Env (1 # 1) true) [0; 3]
              (initial [py "c"; py "b"; py "a"] []))
     = initial [py "c"; py "b"; py "a"] []
  /\ printed (handle_paste_combo
                (Surroundings (1 # 1) true (Some (py "no clipboard")))
                [2; 0] (initial [py "c"; py "b"; py "a"] []))
     = [py "Error: no clipboard"].
Proof.
  split; [|split].
  - apply (proj1 (proj2 (handle_paste_combo_codes (Env (1 # 1) true) [2; 0]
                           (initial [py "c"; py "b"; py "a"] [])))).
    reflexivity.
  - apply (proj1 (proj2 (proj2 (handle_paste_combo_codes (Env (1 # 1) true)
                                  [0; 3]
                                  (initial [py "c"; py "b"; py "a"] []))))).
    vm_compute. discriminate.
  - apply (proj1 (proj2 (proj2 (proj2
             (handle_paste_combo_codes
                (Surroundings (1 # 1) true (Some (py "no clipboard")))
                [2; 0] (initial [py "c"; py "b"; py "a"] []))))) 
             (py "no clipboard")).
    + discriminate.
    + repeat constructor; vm_compute; congruence.
    + reflexivity.
Defined.

End More.
